(** * Metal graphics pipeline state object (LLGL, MTGraphicsPSO.mm)

    A shallow embedding of [MTGraphicsPSO]: its constructor, the two private
    builders [CreateRenderPipelineState] and [CreateDepthStencilState], and
    [Bind].  Native Metal objects are opaque handles; the device is a record
    of factory functions; every factory call and every indexed read of the
    colour-attachment loop is recorded in a trace, so that statements about
    "no native creation call" or "never reads index 8" are statements about
    that trace. *)

From Stdlib Require Import ZArith NArith String List.
From stdpp Require Import base tactics option list vector.

Local Open Scope string_scope.
Local Open Scope list_scope.
Local Open Scope N_scope.

(** ** Plain data shared by both sides *)

(** A C [float]; the code only copies such values, so the IEEE bit pattern
    is all that matters. *)
Definition cfloat := Z.

(** An Objective-C object reference ([id<...>]); [None] is [nil]. *)
Definition MTLHandle := N.

(** [NSError*]: the native diagnostic text. *)
Definition NSError := string.

Inductive BOOL := YES | NO.

(** Modelled from the spec: MTBoolean (MTCore.h) is not among the sources;
    the write flag is "retained as specified", i.e. the C++ [bool] is carried
    over to the Objective-C [BOOL], as lines 140 and 207 write out by hand. *)
Definition MTBoolean (b : bool) : BOOL := if b then YES else NO.

(** ** LLGL descriptors (PipelineStateFlags.h)

    Enumerations whose enumerators this translation unit only passes on to a
    conversion function are kept as their underlying integer. *)

Definition CullMode := N.
Definition PolygonMode := N.
Definition PrimitiveTopology := N.
Definition BlendOp := N.
Definition BlendArithmetic := N.
Definition Format := N.
Definition TessellationPartition := N.

(** Modelled from the spec: the enumerators of [CompareOp] and [StencilOp]
    (LLGL/PipelineStateFlags.h is not among the sources); the spec names
    "keep" and "always pass". *)
Module CompareOp.
Inductive t :=
  NeverPass | Less | Equal | LessEqual | Greater | NotEqual | GreaterEqual | AlwaysPass.
End CompareOp.

Module StencilOp.
Inductive t :=
  Keep | Zero | Replace | IncClamp | DecClamp | Invert | IncWrap | DecWrap.
End StencilOp.

Record ColorRGBAb := { cb_r : bool; cb_g : bool; cb_b : bool; cb_a : bool }.
Record ColorRGBAf := { cf_r : cfloat; cf_g : cfloat; cf_b : cfloat; cf_a : cfloat }.

Record DepthBiasDescriptor := {
  constantFactor : cfloat;
  slopeFactor    : cfloat;
  clamp          : cfloat
}.

Record RasterizerDescriptor := {
  polygonMode        : PolygonMode;
  cullMode           : CullMode;
  depthBias          : DepthBiasDescriptor;
  frontCCW           : bool;
  discardEnabled     : bool;
  depthClampEnabled  : bool;
  multiSampleEnabled : bool
}.

Record BlendTargetDescriptor := {
  blendEnabled    : bool;
  srcColor        : BlendOp;
  dstColor        : BlendOp;
  colorArithmetic : BlendArithmetic;
  srcAlpha        : BlendOp;
  dstAlpha        : BlendOp;
  alphaArithmetic : BlendArithmetic;
  colorMask       : ColorRGBAb
}.

(** [targets] is the C array [BlendTargetDescriptor targets[8]]. *)
Record BlendDescriptor := {
  alphaToCoverageEnabled  : bool;
  independentBlendEnabled : bool;
  blendFactor             : ColorRGBAf;
  blendFactorDynamic      : bool;
  targets                 : vec BlendTargetDescriptor 8
}.

Record DepthDescriptor := {
  depth_testEnabled  : bool;
  depth_writeEnabled : bool;
  depth_compareOp    : CompareOp.t
}.

Record StencilFaceDescriptor := {
  stencilFailOp : StencilOp.t;
  depthFailOp   : StencilOp.t;
  depthPassOp   : StencilOp.t;
  compareOp     : CompareOp.t;
  readMask      : N;
  writeMask     : N;
  reference     : N
}.

Record StencilDescriptor := {
  stencil_testEnabled : bool;
  referenceDynamic    : bool;
  front               : StencilFaceDescriptor;
  back                : StencilFaceDescriptor
}.

Record TessellationDescriptor := {
  partition        : TessellationPartition;
  indexFormat      : Format;
  maxTessFactor    : N;
  outputWindingCCW : bool
}.

(** ** Metal side *)

Definition MTLPixelFormat := N.
Definition MTLCullMode := N.
Definition MTLTriangleFillMode := N.
Definition MTLPrimitiveType := N.
Definition MTLPrimitiveTopologyClass := N.
Definition MTLBlendOperation := N.
Definition MTLBlendFactor := N.
Definition MTLPatchType := N.
Definition MTLTessellationControlPointIndexType := N.
Definition MTLTessellationPartitionMode := N.

Inductive MTLWinding := MTLWindingClockwise | MTLWindingCounterClockwise.
Inductive MTLDepthClipMode := MTLDepthClipModeClip | MTLDepthClipModeClamp.
Inductive MTLTessellationFactorFormat := MTLTessellationFactorFormatHalf.
Inductive MTLTessellationFactorStepFunction :=
| MTLTessellationFactorStepFunctionConstant
| MTLTessellationFactorStepFunctionPerPatch
| MTLTessellationFactorStepFunctionPerInstance
| MTLTessellationFactorStepFunctionPerPatchAndPerInstance.

Inductive MTLStencilOperation :=
| MTLStencilOperationKeep
| MTLStencilOperationZero
| MTLStencilOperationReplace
| MTLStencilOperationIncrementClamp
| MTLStencilOperationDecrementClamp
| MTLStencilOperationInvert
| MTLStencilOperationIncrementWrap
| MTLStencilOperationDecrementWrap.

Inductive MTLCompareFunction :=
| MTLCompareFunctionNever
| MTLCompareFunctionLess
| MTLCompareFunctionEqual
| MTLCompareFunctionLessEqual
| MTLCompareFunctionGreater
| MTLCompareFunctionNotEqual
| MTLCompareFunctionGreaterEqual
| MTLCompareFunctionAlways.

(** [MTLColorWriteMask] is an option set over an unsigned integer. *)
Definition MTLColorWriteMask := N.
Definition MTLColorWriteMaskNone  : MTLColorWriteMask := 0.
Definition MTLColorWriteMaskRed   : MTLColorWriteMask := N.shiftl 1 3.
Definition MTLColorWriteMaskGreen : MTLColorWriteMask := N.shiftl 1 2.
Definition MTLColorWriteMaskBlue  : MTLColorWriteMask := N.shiftl 1 1.
Definition MTLColorWriteMaskAlpha : MTLColorWriteMask := N.shiftl 1 0.

Record MTLFunction := {
  functionId : MTLHandle;
  patchType  : MTLPatchType
}.

Record MTLStencilDescriptor := {
  stencilFailureOperation   : MTLStencilOperation;
  depthFailureOperation     : MTLStencilOperation;
  depthStencilPassOperation : MTLStencilOperation;
  stencilCompareFunction    : MTLCompareFunction;
  sd_readMask               : N;
  sd_writeMask              : N
}.

Record MTLDepthStencilDescriptor := {
  depthWriteEnabled    : BOOL;
  depthCompareFunction : MTLCompareFunction;
  frontFaceStencil     : MTLStencilDescriptor;
  backFaceStencil      : MTLStencilDescriptor
}.

Record MTLRenderPipelineColorAttachmentDescriptor := {
  ca_pixelFormat              : MTLPixelFormat;
  ca_writeMask                : MTLColorWriteMask;
  blendingEnabled             : BOOL;
  alphaBlendOperation         : MTLBlendOperation;
  rgbBlendOperation           : MTLBlendOperation;
  destinationAlphaBlendFactor : MTLBlendFactor;
  destinationRGBBlendFactor   : MTLBlendFactor;
  sourceAlphaBlendFactor      : MTLBlendFactor;
  sourceRGBBlendFactor        : MTLBlendFactor
}.

(** The seven tessellation properties of the pipeline descriptor, assigned
    together inside the [if] of lines 211-224. *)
Record MTLTessellationProperties := {
  maxTessellationFactor             : N;
  tessellationFactorScaleEnabled    : BOOL;
  tessellationFactorFormat          : MTLTessellationFactorFormat;
  tessellationControlPointIndexType : MTLTessellationControlPointIndexType;
  tessellationFactorStepFunction    : MTLTessellationFactorStepFunction;
  tessellationOutputWindingOrder    : MTLWinding;
  tessellationPartitionMode         : MTLTessellationPartitionMode
}.

(** [MTLRenderPipelineDescriptor] as the translator leaves it.  A property
    the translator assigns only under a condition is an [option]: [None]
    means it still has whatever [[[MTLRenderPipelineDescriptor alloc] init]]
    gave it.  [pso_colorAttachments] is the eight-slot attachment array; an
    untouched slot is [None]. *)
Record MTLRenderPipelineDescriptor := {
  vertexDescriptor             : option MTLHandle;
  pso_alphaToCoverageEnabled   : BOOL;
  alphaToOneEnabled            : BOOL;
  fragmentFunction             : option MTLFunction;
  vertexFunction               : option MTLFunction;
  inputPrimitiveTopology       : option MTLPrimitiveTopologyClass;
  pso_colorAttachments         : list (option MTLRenderPipelineColorAttachmentDescriptor);
  depthAttachmentPixelFormat   : MTLPixelFormat;
  stencilAttachmentPixelFormat : MTLPixelFormat;
  rasterizationEnabled         : BOOL;
  rasterSampleCount            : N;
  pso_tessellation             : option MTLTessellationProperties
}.

(** ** Collaborators: shader, render pass, device, build configuration *)

Record MTShader := {
  GetNative                : option MTLFunction;
  GetNumPatchControlPoints : N;
  GetMTLVertexDesc         : option MTLHandle
}.

(** Of an attachment the translator reads the pixel format only. *)
Record MTAttachmentFormat := { pixelFormat : MTLPixelFormat }.

Record MTRenderPass := {
  GetColorAttachments  : list MTAttachmentFormat;
  GetDepthAttachment   : MTAttachmentFormat;
  GetStencilAttachment : MTAttachmentFormat;
  GetSampleCount       : N
}.

Record GraphicsPipelineDescriptor := {
  vertexShader      : option MTShader;
  tessControlShader : option MTShader;
  fragmentShader    : option MTShader;
  renderPass        : option MTRenderPass;
  primitiveTopology : PrimitiveTopology;
  depth             : DepthDescriptor;
  stencil           : StencilDescriptor;
  rasterizer        : RasterizerDescriptor;
  blend             : BlendDescriptor;
  tessellation      : TessellationDescriptor
}.

(** [id<MTLDevice>]: the three factory messages the translator sends.  The
    two pipeline factories return the new object (or [nil]) together with the
    [NSError] written through [error:]. *)
Record MTLDevice := {
  newRenderPipelineStateWithDescriptor :
    MTLRenderPipelineDescriptor -> option MTLHandle * option NSError;
  newComputePipelineStateWithFunction :
    option MTLFunction -> option MTLHandle * option NSError;
  newDepthStencilStateWithDescriptor :
    MTLDepthStencilDescriptor -> option MTLHandle
}.

(** What is fixed when the file is compiled or the process starts: the
    [LLGL_OS_IOS] macro and the two [@available] checks. *)
Record BuildEnv := {
  LLGL_OS_IOS              : bool;
  available_depthClipMode  : bool;   (* @available(macOS 10.11, iOS 11, * ) *)
  available_inputTopology  : bool    (* @available(iOS 12.0, * ) *)
}.

(** The conversion tables of namespace [MTTypes] (MTTypes.cpp is not among
    the sources): an interface the development is parametric in. *)
Class MTTypes := {
  ToMTLCullMode               : CullMode -> MTLCullMode;
  ToMTLTriangleFillMode       : PolygonMode -> MTLTriangleFillMode;
  ToMTLPrimitiveType          : PrimitiveTopology -> MTLPrimitiveType;
  ToMTLPrimitiveTopologyClass : PrimitiveTopology -> MTLPrimitiveTopologyClass;
  ToMTLStencilOperation       : StencilOp.t -> MTLStencilOperation;
  ToMTLCompareFunction        : CompareOp.t -> MTLCompareFunction;
  ToMTLBlendOperation         : BlendArithmetic -> MTLBlendOperation;
  ToMTLBlendFactor            : BlendOp -> MTLBlendFactor;
  ToMTLPatchIndexType         : Format -> MTLTessellationControlPointIndexType;
  ToMTLPartitionMode          : TessellationPartition -> MTLTessellationPartitionMode
}.

(** [IsStaticBlendFactorEnabled] of PipelineStateUtils.h, likewise. *)
Class PipelineStateUtils := {
  IsStaticBlendFactorEnabled : BlendDescriptor -> bool
}.

(** ** The object under construction *)

(** Members written by the constructor body itself (lines 52-67). *)
Record StandaloneMembers := {
  cullMode_          : MTLCullMode;
  winding_           : MTLWinding;
  fillMode_          : MTLTriangleFillMode;
  primitiveType_     : MTLPrimitiveType;
  clipMode_          : MTLDepthClipMode;
  depthBias_         : cfloat;
  depthSlope_        : cfloat;
  depthClamp_        : cfloat;
  blendColorDynamic_ : bool;
  blendColorEnabled_ : bool;
  blendColor_        : cfloat * cfloat * cfloat * cfloat
}.

(** Members written by [CreateRenderPipelineState]. *)
Record PipelineMembers := {
  numPatchControlPoints_ : N;
  patchType_             : MTLPatchType;
  renderPipelineState_   : option MTLHandle;
  tessPipelineState_     : option MTLHandle
}.

(** Members written by [CreateDepthStencilState]. *)
Record DepthStencilMembers := {
  depthStencilState_ : option MTLHandle;
  stencilFrontRef_   : N;
  stencilBackRef_    : N;
  stencilRefDynamic_ : bool
}.

Record MTGraphicsPSO := {
  isGraphicsPSO : bool;
  standalone    : StandaloneMembers;
  pipeline      : PipelineMembers;
  depthStencil  : DepthStencilMembers
}.

(** ** Exceptions, trace and the construction monad *)

Inductive Exception :=
| InvalidArgument (what : string)                       (* std::invalid_argument *)
| BackendCreationFailed (interfaceName : string) (diagnostic : option NSError).

Inductive Event :=
| ReadColorAttachment (i : nat)     (* colorAttachments[i] of the render pass *)
| ReadBlendTarget (i : nat)         (* desc.blend.targets[i] *)
| NewRenderPipelineState (d : MTLRenderPipelineDescriptor)
| NewComputePipelineState (f : option MTLFunction)
| NewDepthStencilState (d : MTLDepthStencilDescriptor).

Record World := {
  this  : MTGraphicsPSO;
  trace : list Event
}.

(** [Undefined] is an access outside the bounds of an array. *)
Inductive Outcome (A : Type) :=
| Ok (a : A)
| Throw (e : Exception)
| Undefined.
Arguments Ok {A} a.
Arguments Throw {A} e.
Arguments Undefined {A}.

Definition M (A : Type) : Type := World -> Outcome A * World.

Definition ret {A} (a : A) : M A := fun w => (Ok a, w).

Definition bind {A B} (m : M A) (k : A -> M B) : M B :=
  fun w =>
    match m w with
    | (Ok a, w')    => k a w'
    | (Throw e, w') => (Throw e, w')
    | (Undefined, w') => (Undefined, w')
    end.

Definition throw {A} (e : Exception) : M A := fun w => (Throw e, w).
Definition undefined {A} : M A := fun w => (Undefined, w).

Definition emit (e : Event) : M unit :=
  fun w => (Ok tt, {| this := this w; trace := trace w ++ [e] |}).

Definition get_this : M MTGraphicsPSO := fun w => (Ok (this w), w).

Definition modify_this (f : MTGraphicsPSO -> MTGraphicsPSO) : M unit :=
  fun w => (Ok tt, {| this := f (this w); trace := trace w |}).

Declare Scope pso_scope.
Delimit Scope pso_scope with pso.
Notation "x <- m ;; k" := (bind m (fun x => k))
  (at level 100, m at next level, right associativity) : pso_scope.
Notation "m ;; k" := (bind m (fun _ => k))
  (at level 100, right associativity) : pso_scope.
Local Open Scope pso_scope.

(** [for (std::size_t i = start; i < start + count; ++i) s = body(i, s);] *)
Fixpoint for_range {S} (count i : nat) (body : nat -> S -> M S) (s : S) : M S :=
  match count with
  | O => ret s
  | Datatypes.S c => s' <- body i s ;; for_range c (Datatypes.S i) body s'
  end.

(** Member updates. *)
Definition set_standalone (s : StandaloneMembers) (o : MTGraphicsPSO) : MTGraphicsPSO :=
  {| isGraphicsPSO := isGraphicsPSO o; standalone := s;
     pipeline := pipeline o; depthStencil := depthStencil o |}.

Definition set_pipeline (p : PipelineMembers) (o : MTGraphicsPSO) : MTGraphicsPSO :=
  {| isGraphicsPSO := isGraphicsPSO o; standalone := standalone o;
     pipeline := p; depthStencil := depthStencil o |}.

Definition set_depthStencil (d : DepthStencilMembers) (o : MTGraphicsPSO) : MTGraphicsPSO :=
  {| isGraphicsPSO := isGraphicsPSO o; standalone := standalone o;
     pipeline := pipeline o; depthStencil := d |}.

Definition set_numPatchControlPoints_ (n : N) (o : MTGraphicsPSO) :=
  set_pipeline {| numPatchControlPoints_ := n;
                  patchType_ := patchType_ (pipeline o);
                  renderPipelineState_ := renderPipelineState_ (pipeline o);
                  tessPipelineState_ := tessPipelineState_ (pipeline o) |} o.

Definition set_patchType_ (t : MTLPatchType) (o : MTGraphicsPSO) :=
  set_pipeline {| numPatchControlPoints_ := numPatchControlPoints_ (pipeline o);
                  patchType_ := t;
                  renderPipelineState_ := renderPipelineState_ (pipeline o);
                  tessPipelineState_ := tessPipelineState_ (pipeline o) |} o.

Definition set_renderPipelineState_ (h : option MTLHandle) (o : MTGraphicsPSO) :=
  set_pipeline {| numPatchControlPoints_ := numPatchControlPoints_ (pipeline o);
                  patchType_ := patchType_ (pipeline o);
                  renderPipelineState_ := h;
                  tessPipelineState_ := tessPipelineState_ (pipeline o) |} o.

Definition set_tessPipelineState_ (h : option MTLHandle) (o : MTGraphicsPSO) :=
  set_pipeline {| numPatchControlPoints_ := numPatchControlPoints_ (pipeline o);
                  patchType_ := patchType_ (pipeline o);
                  renderPipelineState_ := renderPipelineState_ (pipeline o);
                  tessPipelineState_ := h |} o.

Definition set_stencilRefs (f b : N) (dyn : bool) (o : MTGraphicsPSO) :=
  set_depthStencil {| depthStencilState_ := depthStencilState_ (depthStencil o);
                      stencilFrontRef_ := f;
                      stencilBackRef_ := b;
                      stencilRefDynamic_ := dyn |} o.

Definition set_depthStencilState_ (h : option MTLHandle) (o : MTGraphicsPSO) :=
  set_depthStencil {| depthStencilState_ := h;
                      stencilFrontRef_ := stencilFrontRef_ (depthStencil o);
                      stencilBackRef_ := stencilBackRef_ (depthStencil o);
                      stencilRefDynamic_ := stencilRefDynamic_ (depthStencil o) |} o.

(** ** The translation unit *)

Section MTGraphicsPSO.
Context {tables : MTTypes} {utils : PipelineStateUtils}.

(** Lines 24-32. *)
Definition Convert (src : StencilFaceDescriptor) : MTLStencilDescriptor :=
  {| stencilFailureOperation   := ToMTLStencilOperation (stencilFailOp src);
     depthFailureOperation     := ToMTLStencilOperation (depthFailOp src);
     depthStencilPassOperation := ToMTLStencilOperation (depthPassOp src);
     stencilCompareFunction    := ToMTLCompareFunction (compareOp src);
     sd_readMask               := readMask src;
     sd_writeMask              := writeMask src |}.

(** Lines 34-42. *)
Definition FillDefaultMTStencilDesc : MTLStencilDescriptor :=
  {| stencilFailureOperation   := MTLStencilOperationKeep;
     depthFailureOperation     := MTLStencilOperationKeep;
     depthStencilPassOperation := MTLStencilOperationKeep;
     stencilCompareFunction    := MTLCompareFunctionAlways;
     sd_readMask               := 0;
     sd_writeMask              := 0 |}.

(** Lines 113-127. *)
Definition ToMTLColorWriteMask (color : ColorRGBAb) : MTLColorWriteMask :=
  let mask := MTLColorWriteMaskNone in
  let mask := if cb_r color then N.lor mask MTLColorWriteMaskRed else mask in
  let mask := if cb_g color then N.lor mask MTLColorWriteMaskGreen else mask in
  let mask := if cb_b color then N.lor mask MTLColorWriteMaskBlue else mask in
  let mask := if cb_a color then N.lor mask MTLColorWriteMaskAlpha else mask in
  mask.

(** Lines 129-149.  Every property of [dst] that the model carries is
    overwritten, so the result does not depend on the previous [dst];
    [blendDesc] is a parameter the body never reads. *)
Definition FillColorAttachmentDesc
    (pixelFormat : MTLPixelFormat)
    (blendDesc   : BlendDescriptor)
    (targetDesc  : BlendTargetDescriptor)
  : MTLRenderPipelineColorAttachmentDescriptor :=
  {| ca_pixelFormat              := pixelFormat;
     ca_writeMask                := ToMTLColorWriteMask (colorMask targetDesc);
     blendingEnabled             := if blendEnabled targetDesc then YES else NO;
     alphaBlendOperation         := ToMTLBlendOperation (alphaArithmetic targetDesc);
     rgbBlendOperation           := ToMTLBlendOperation (colorArithmetic targetDesc);
     destinationAlphaBlendFactor := ToMTLBlendFactor (dstAlpha targetDesc);
     destinationRGBBlendFactor   := ToMTLBlendFactor (dstColor targetDesc);
     sourceAlphaBlendFactor      := ToMTLBlendFactor (srcAlpha targetDesc);
     sourceRGBBlendFactor        := ToMTLBlendFactor (srcColor targetDesc) |}.

(** Lines 151-154. *)
Definition GetNativeMTShader (shader : option MTShader) : option MTLFunction :=
  match shader with
  | Some s => GetNative s
  | None => None
  end.

(** Modelled from the spec: MTThrowIfCreateFailed (MTCore) is not among the
    sources; a factory call that yields no object "surfaces
    BackendCreationFailed with the native error text". *)
Definition MTThrowIfCreateFailed (error : option NSError) (interfaceName : string) : M unit :=
  throw (BackendCreationFailed interfaceName error).

(** Indexed reads of the loop of lines 195-203; outside the bounds the
    behaviour is undefined. *)
Definition read_colorAttachment (colorAttachments : list MTAttachmentFormat) (i : nat)
  : M MTAttachmentFormat :=
  match colorAttachments !! i with
  | Some a => (emit (ReadColorAttachment i) ;; ret a)
  | None => undefined
  end.

Definition read_blendTarget (blendDesc : BlendDescriptor) (i : nat) : M BlendTargetDescriptor :=
  match vec_to_list (targets blendDesc) !! i with
  | Some t => (emit (ReadBlendTarget i) ;; ret t)
  | None => undefined
  end.

(** [psoDesc.colorAttachments[i]] as the destination of
    [FillColorAttachmentDesc]. *)
Definition write_colorAttachment
    (slots : list (option MTLRenderPipelineColorAttachmentDescriptor))
    (i : nat) (d : MTLRenderPipelineColorAttachmentDescriptor)
  : M (list (option MTLRenderPipelineColorAttachmentDescriptor)) :=
  if decide (i < length slots)%nat then ret (<[i := Some d]> slots) else undefined.

(** The native factory messages, traced. *)
Definition send_newRenderPipelineState (device : MTLDevice) (d : MTLRenderPipelineDescriptor)
  : M (option MTLHandle * option NSError) :=
  emit (NewRenderPipelineState d) ;; ret (newRenderPipelineStateWithDescriptor device d).

Definition send_newComputePipelineState (device : MTLDevice) (f : option MTLFunction)
  : M (option MTLHandle * option NSError) :=
  emit (NewComputePipelineState f) ;; ret (newComputePipelineStateWithFunction device f).

Definition send_newDepthStencilState (device : MTLDevice) (d : MTLDepthStencilDescriptor)
  : M (option MTLHandle) :=
  emit (NewDepthStencilState d) ;; ret (newDepthStencilStateWithDescriptor device d).

(** Body of the loop of lines 195-203. *)
Definition colorAttachment_body
    (desc : GraphicsPipelineDescriptor)
    (colorAttachments : list MTAttachmentFormat)
    (i : nat)
    (slots : list (option MTLRenderPipelineColorAttachmentDescriptor))
  : M (list (option MTLRenderPipelineColorAttachmentDescriptor)) :=
  att <- read_colorAttachment colorAttachments i ;;
  targetDesc <- read_blendTarget (blend desc)
                  (if independentBlendEnabled (blend desc) then i else 0%nat) ;;
  write_colorAttachment slots i
    (FillColorAttachmentDesc (pixelFormat att) (blend desc) targetDesc).

(** Lines 184-224 without the loop: the properties assigned to [psoDesc],
    given the attachment array the loop leaves behind and the value of the
    member [numPatchControlPoints_] read at line 211. *)
Definition psoDesc_properties
    (env : BuildEnv)
    (desc : GraphicsPipelineDescriptor)
    (vertexShaderMT : MTShader)
    (renderPassMT : MTRenderPass)
    (slots : list (option MTLRenderPipelineColorAttachmentDescriptor))
    (numPatchControlPoints : N)
  : MTLRenderPipelineDescriptor :=
  {| vertexDescriptor           := GetMTLVertexDesc vertexShaderMT;
     pso_alphaToCoverageEnabled := MTBoolean (alphaToCoverageEnabled (blend desc));
     alphaToOneEnabled          := NO;
     fragmentFunction           := GetNativeMTShader (fragmentShader desc);
     vertexFunction             := GetNativeMTShader (vertexShader desc);
     inputPrimitiveTopology     :=
       if available_inputTopology env
       then Some (ToMTLPrimitiveTopologyClass (primitiveTopology desc))
       else None;
     pso_colorAttachments       := slots;
     depthAttachmentPixelFormat   := pixelFormat (GetDepthAttachment renderPassMT);
     stencilAttachmentPixelFormat := pixelFormat (GetStencilAttachment renderPassMT);
     rasterizationEnabled       := if discardEnabled (rasterizer desc) then NO else YES;
     rasterSampleCount          :=
       if multiSampleEnabled (rasterizer desc) then GetSampleCount renderPassMT else 1;
     pso_tessellation           :=
       if 0 <? numPatchControlPoints
       then Some
         {| maxTessellationFactor :=
              if LLGL_OS_IOS env
              then N.min (maxTessFactor (tessellation desc)) 16
              else N.min (maxTessFactor (tessellation desc)) 64;
            tessellationFactorScaleEnabled := NO;
            tessellationFactorFormat := MTLTessellationFactorFormatHalf;
            tessellationControlPointIndexType :=
              ToMTLPatchIndexType (indexFormat (tessellation desc));
            tessellationFactorStepFunction :=
              MTLTessellationFactorStepFunctionPerPatchAndPerInstance;
            tessellationOutputWindingOrder :=
              if outputWindingCCW (tessellation desc)
              then MTLWindingCounterClockwise else MTLWindingClockwise;
            tessellationPartitionMode :=
              ToMTLPartitionMode (partition (tessellation desc)) |}
       else None |}.

(** Lines 182-225: the braced block that fills [psoDesc]; the loop of lines
    195-203 runs over [i] in [0, min(colorAttachments.size(), 8)). *)
Definition CreateRenderPipelineState_psoDesc
    (env : BuildEnv)
    (desc : GraphicsPipelineDescriptor)
    (vertexShaderMT : MTShader)
    (renderPassMT : MTRenderPass)
  : M MTLRenderPipelineDescriptor :=
  let colorAttachments := GetColorAttachments renderPassMT in
  slots <- for_range (Nat.min (length colorAttachments) 8) 0
             (colorAttachment_body desc colorAttachments)
             (replicate 8 None) ;;
  self <- get_this ;;
  ret (psoDesc_properties env desc vertexShaderMT renderPassMT slots
         (numPatchControlPoints_ (pipeline self))).

(** Lines 156-245. *)
Definition CreateRenderPipelineState
    (env : BuildEnv)
    (device : MTLDevice)
    (desc : GraphicsPipelineDescriptor)
    (defaultRenderPass : option MTRenderPass)
  : M unit :=
  vertexShaderMT <-
    (match vertexShader desc with
     | Some s => ret s
     | None => throw (InvalidArgument "cannot create Metal pipeline without vertex shader")
     end) ;;
  modify_this (set_numPatchControlPoints_ (GetNumPatchControlPoints vertexShaderMT)) ;;
  (match GetNative vertexShaderMT with
   | Some vertexFunc => modify_this (set_patchType_ (patchType vertexFunc))
   | None => ret tt
   end) ;;
  renderPassMT <-
    (match renderPass desc with
     | Some rp => ret rp
     | None =>
         match defaultRenderPass with
         | Some rp => ret rp
         | None => throw (InvalidArgument "cannot create graphics pipeline without render pass")
         end
     end) ;;
  psoDesc <- CreateRenderPipelineState_psoDesc env desc vertexShaderMT renderPassMT ;;
  created <- send_newRenderPipelineState device psoDesc ;;
  modify_this (set_renderPipelineState_ (fst created)) ;;
  (match fst created with
   | Some _ => ret tt
   | None => MTThrowIfCreateFailed (snd created) "MTLRenderPipelineState"
   end) ;;
  self <- get_this ;;
  if 0 <? numPatchControlPoints_ (pipeline self) then
    match tessControlShader desc with
    | Some tessComputeShaderMT =>
        created <- send_newComputePipelineState device (GetNative tessComputeShaderMT) ;;
        modify_this (set_tessPipelineState_ (fst created)) ;;
        match fst created with
        | Some _ => ret tt
        | None => MTThrowIfCreateFailed (snd created) "MTLComputePipelineState"
        end
    | None =>
        throw (InvalidArgument
          "cannot create Metal tessellation pipeline without tessellation compute shader")
    end
  else ret tt.

(** Lines 251-276: the braced block that fills [depthStencilDesc]. *)
Definition CreateDepthStencilState_desc (desc : GraphicsPipelineDescriptor)
  : MTLDepthStencilDescriptor :=
  {| depthWriteEnabled := MTBoolean (depth_writeEnabled (depth desc));
     depthCompareFunction :=
       if depth_testEnabled (depth desc)
       then ToMTLCompareFunction (depth_compareOp (depth desc))
       else MTLCompareFunctionAlways;
     frontFaceStencil :=
       if stencil_testEnabled (stencil desc)
       then Convert (front (stencil desc))
       else FillDefaultMTStencilDesc;
     backFaceStencil :=
       if stencil_testEnabled (stencil desc)
       then Convert (back (stencil desc))
       else FillDefaultMTStencilDesc |}.

(** Lines 247-279. *)
Definition CreateDepthStencilState
    (device : MTLDevice)
    (desc : GraphicsPipelineDescriptor)
  : M unit :=
  let depthStencilDesc := CreateDepthStencilState_desc desc in
  modify_this (set_stencilRefs (reference (front (stencil desc)))
                               (reference (back (stencil desc)))
                               (referenceDynamic (stencil desc))) ;;
  state <- send_newDepthStencilState device depthStencilDesc ;;
  modify_this (set_depthStencilState_ state).

(** Lines 51-67: the standalone parameters. *)
Definition MTGraphicsPSO_standalone (desc : GraphicsPipelineDescriptor) : StandaloneMembers :=
  {| cullMode_      := ToMTLCullMode (cullMode (rasterizer desc));
     winding_       := if frontCCW (rasterizer desc)
                       then MTLWindingCounterClockwise else MTLWindingClockwise;
     fillMode_      := ToMTLTriangleFillMode (polygonMode (rasterizer desc));
     primitiveType_ := ToMTLPrimitiveType (primitiveTopology desc);
     clipMode_      := if depthClampEnabled (rasterizer desc)
                       then MTLDepthClipModeClamp else MTLDepthClipModeClip;
     depthBias_     := constantFactor (depthBias (rasterizer desc));
     depthSlope_    := slopeFactor (depthBias (rasterizer desc));
     depthClamp_    := clamp (depthBias (rasterizer desc));
     blendColorDynamic_ := blendFactorDynamic (blend desc);
     blendColorEnabled_ := IsStaticBlendFactorEnabled (blend desc);
     blendColor_    := (cf_r (blendFactor (blend desc)),
                        cf_g (blendFactor (blend desc)),
                        cf_b (blendFactor (blend desc)),
                        cf_a (blendFactor (blend desc))) |}.

(** Lines 44-72: the constructor.  It runs on the freshly allocated object,
    whatever its members hold; the base class is initialised with
    [isGraphicsPSO: true]. *)
Definition MTGraphicsPSO_ctor
    (env : BuildEnv)
    (device : MTLDevice)
    (desc : GraphicsPipelineDescriptor)
    (defaultRenderPass : option MTRenderPass)
  : M unit :=
  modify_this (fun o =>
    {| isGraphicsPSO := true; standalone := standalone o;
       pipeline := pipeline o; depthStencil := depthStencil o |}) ;;
  modify_this (set_standalone (MTGraphicsPSO_standalone desc)) ;;
  CreateRenderPipelineState env device desc defaultRenderPass ;;
  CreateDepthStencilState device desc.

End MTGraphicsPSO.

(** ** Binding *)

Inductive EncoderCommand :=
| setRenderPipelineState (state : option MTLHandle)
| setDepthStencilState (state : option MTLHandle)
| setCullMode (mode : MTLCullMode)
| setFrontFacingWinding (winding : MTLWinding)
| setTriangleFillMode (mode : MTLTriangleFillMode)
| setDepthClipMode (mode : MTLDepthClipMode)
| setDepthBias (bias slopeScale clamp : cfloat)
| setStencilFrontReferenceValue_backReferenceValue (frontRef backRef : N)
| setStencilReferenceValue (ref : N)
| setBlendColor (red green blue alpha : cfloat).

(** Lines 74-106: the messages [Bind] sends to the encoder, in order.  The
    region between [#ifndef LLGL_OS_IOS] and [#endif] (lines 85-95) is not
    compiled when the macro is defined. *)
Definition Bind (env : BuildEnv) (pso : MTGraphicsPSO) : list EncoderCommand :=
  let s := standalone pso in
  let d := depthStencil pso in
  [ setRenderPipelineState (renderPipelineState_ (pipeline pso));
    setDepthStencilState (depthStencilState_ d);
    setCullMode (cullMode_ s);
    setFrontFacingWinding (winding_ s);
    setTriangleFillMode (fillMode_ s) ]
  ++ (if available_depthClipMode env then [ setDepthClipMode (clipMode_ s) ] else [])
  ++ (if LLGL_OS_IOS env then []
      else
        [ setDepthBias (depthBias_ s) (depthSlope_ s) (depthClamp_ s) ]
        ++ (if negb (stencilRefDynamic_ d) then
              if negb (stencilFrontRef_ d =? stencilBackRef_ d)
              then [ setStencilFrontReferenceValue_backReferenceValue
                       (stencilFrontRef_ d) (stencilBackRef_ d) ]
              else [ setStencilReferenceValue (stencilFrontRef_ d) ]
            else []))
  ++ (if blendColorEnabled_ s
      then [ let '(r, g, b, a) := blendColor_ s in setBlendColor r g b a ]
      else []).

(** ** Reading a run *)

(** The events a run appended to the trace it started from. *)
Definition events_since (w w' : World) : list Event :=
  drop (length (trace w)) (trace w').

Definition is_native_creation (e : Event) : bool :=
  match e with
  | NewRenderPipelineState _ | NewComputePipelineState _ | NewDepthStencilState _ => true
  | ReadColorAttachment _ | ReadBlendTarget _ => false
  end.

(** The native factory calls among a list of events, in order. *)
Definition native_creations (evs : list Event) : list Event :=
  List.filter is_native_creation evs.

(** Functional updates of the descriptor, for statements that compare two
    descriptors differing in one member. *)
Definition with_renderPass (rp : option MTRenderPass) (d : GraphicsPipelineDescriptor) :=
  {| vertexShader := vertexShader d; tessControlShader := tessControlShader d;
     fragmentShader := fragmentShader d; renderPass := rp;
     primitiveTopology := primitiveTopology d; depth := depth d; stencil := stencil d;
     rasterizer := rasterizer d; blend := blend d; tessellation := tessellation d |}.

Definition with_tessControlShader (s : option MTShader) (d : GraphicsPipelineDescriptor) :=
  {| vertexShader := vertexShader d; tessControlShader := s;
     fragmentShader := fragmentShader d; renderPass := renderPass d;
     primitiveTopology := primitiveTopology d; depth := depth d; stencil := stencil d;
     rasterizer := rasterizer d; blend := blend d; tessellation := tessellation d |}.

Definition with_depth (x : DepthDescriptor) (d : GraphicsPipelineDescriptor) :=
  {| vertexShader := vertexShader d; tessControlShader := tessControlShader d;
     fragmentShader := fragmentShader d; renderPass := renderPass d;
     primitiveTopology := primitiveTopology d; depth := x; stencil := stencil d;
     rasterizer := rasterizer d; blend := blend d; tessellation := tessellation d |}.

Definition with_stencil (x : StencilDescriptor) (d : GraphicsPipelineDescriptor) :=
  {| vertexShader := vertexShader d; tessControlShader := tessControlShader d;
     fragmentShader := fragmentShader d; renderPass := renderPass d;
     primitiveTopology := primitiveTopology d; depth := depth d; stencil := x;
     rasterizer := rasterizer d; blend := blend d; tessellation := tessellation d |}.

Definition with_colorAttachments (l : list MTAttachmentFormat) (rp : MTRenderPass) :=
  {| GetColorAttachments := l; GetDepthAttachment := GetDepthAttachment rp;
     GetStencilAttachment := GetStencilAttachment rp; GetSampleCount := GetSampleCount rp |}.

(** The render pass the spec calls effective: the explicit one takes
    priority over the default one. *)
Definition spec_effectiveRenderPass
    (desc : GraphicsPipelineDescriptor) (defaultRenderPass : option MTRenderPass)
  : option MTRenderPass :=
  match renderPass desc with
  | Some rp => Some rp
  | None => defaultRenderPass
  end.

(** The stencil face the spec describes for a disabled stencil test, as an
    LLGL face descriptor carrying reference value [r]. *)
Definition spec_disabledStencilFace (r : N) : StencilFaceDescriptor :=
  {| stencilFailOp := StencilOp.Keep;
     depthFailOp   := StencilOp.Keep;
     depthPassOp   := StencilOp.Keep;
     compareOp     := CompareOp.AlwaysPass;
     readMask      := 0;
     writeMask     := 0;
     reference     := r |}.

(** The platform's hard limit on the tessellation factor, in the spec's
    words: 16 on the mobile platform, 64 otherwise. *)
Definition spec_tessFactorLimit (env : BuildEnv) : N :=
  if LLGL_OS_IOS env then 16 else 64.

(** ** Closed forms: what a run leaves behind *)

Section ClosedForms.
Context {tables : MTTypes} {utils : PipelineStateUtils}.

Section LoopForms.
Variable desc : GraphicsPipelineDescriptor.
Variable cas : list MTAttachmentFormat.

(** The index of the blend target read in iteration [i] (line 201). *)
Definition target_index (i : nat) : nat :=
  if independentBlendEnabled (blend desc) then i else 0%nat.

(** What slot [i] of the attachment array holds once the loop is over. *)
Definition filled_slot (i : nat) : option MTLRenderPipelineColorAttachmentDescriptor :=
  if decide (i < Nat.min (length cas) 8)%nat then
    match cas !! i, vec_to_list (targets (blend desc)) !! target_index i with
    | Some a, Some t => Some (FillColorAttachmentDesc (pixelFormat a) (blend desc) t)
    | _, _ => None
    end
  else None.

Definition filled_slots : list (option MTLRenderPipelineColorAttachmentDescriptor) :=
  map filled_slot (seq 0 8).

(** The reads of iterations [i], [i+1], ..., [i+count-1]. *)
Definition loop_reads (i count : nat) : list Event :=
  flat_map (fun j => [ReadColorAttachment j; ReadBlendTarget (target_index j)]) (seq i count).

End LoopForms.

(** The object after lines 167-170. *)
Definition after_patch_query (vs : MTShader) (o : MTGraphicsPSO) : MTGraphicsPSO :=
  let o1 := set_numPatchControlPoints_ (GetNumPatchControlPoints vs) o in
  match GetNative vs with
  | Some f => set_patchType_ (patchType f) o1
  | None => o1
  end.

(** The descriptor handed to the render-pipeline factory. *)
Definition translated_psoDesc
    (env : BuildEnv) (desc : GraphicsPipelineDescriptor)
    (vs : MTShader) (rp : MTRenderPass) : MTLRenderPipelineDescriptor :=
  psoDesc_properties env desc vs rp
    (filled_slots desc (GetColorAttachments rp)) (GetNumPatchControlPoints vs).

Definition attachment_reads (desc : GraphicsPipelineDescriptor) (rp : MTRenderPass)
  : list Event :=
  loop_reads desc 0 (Nat.min (length (GetColorAttachments rp)) 8).

(** The world in which [CreateRenderPipelineState] stops once the factory
    has been asked for the render pipeline. *)
Definition after_primary_creation
    (env : BuildEnv) (device : MTLDevice) (desc : GraphicsPipelineDescriptor)
    (vs : MTShader) (rp : MTRenderPass) (w : World) : World :=
  let pd := translated_psoDesc env desc vs rp in
  {| this := set_renderPipelineState_
               (fst (newRenderPipelineStateWithDescriptor device pd))
               (after_patch_query vs (this w));
     trace := trace w ++ attachment_reads desc rp ++ [NewRenderPipelineState pd] |}.

Definition msg_no_vertex_shader : string :=
  "cannot create Metal pipeline without vertex shader".
Definition msg_no_render_pass : string :=
  "cannot create graphics pipeline without render pass".
Definition msg_no_tess_shader : string :=
  "cannot create Metal tessellation pipeline without tessellation compute shader".

(** The object after lines 49-67. *)
Definition after_standalone (desc : GraphicsPipelineDescriptor) (o : MTGraphicsPSO)
  : MTGraphicsPSO :=
  {| isGraphicsPSO := true; standalone := MTGraphicsPSO_standalone desc;
     pipeline := pipeline o; depthStencil := depthStencil o |}.

End ClosedForms.

(** Events that may follow the render-pipeline factory call. *)
Definition is_tail_creation (e : Event) : Prop :=
  match e with
  | NewComputePipelineState _ | NewDepthStencilState _ => True
  | _ => False
  end.

Definition is_stencil_reference_command (c : EncoderCommand) : bool :=
  match c with
  | setStencilFrontReferenceValue_backReferenceValue _ _ | setStencilReferenceValue _ => true
  | _ => false
  end.

(** The stencil-reference messages among those [Bind] sends. *)
Definition stencil_reference_commands (env : BuildEnv) (pso : MTGraphicsPSO)
  : list EncoderCommand :=
  List.filter is_stencil_reference_command (Bind env pso).

(** ** Concrete collaborators used to exercise the statements *)

Module Fixtures.

(** Conversion tables that send every enumerator to its namesake. *)
Definition namesake_tables : MTTypes :=
  {| ToMTLCullMode := fun x => x;
     ToMTLTriangleFillMode := fun x => x;
     ToMTLPrimitiveType := fun x => x;
     ToMTLPrimitiveTopologyClass := fun x => x;
     ToMTLStencilOperation := fun o =>
       match o with
       | StencilOp.Keep => MTLStencilOperationKeep
       | StencilOp.Zero => MTLStencilOperationZero
       | StencilOp.Replace => MTLStencilOperationReplace
       | StencilOp.IncClamp => MTLStencilOperationIncrementClamp
       | StencilOp.DecClamp => MTLStencilOperationDecrementClamp
       | StencilOp.Invert => MTLStencilOperationInvert
       | StencilOp.IncWrap => MTLStencilOperationIncrementWrap
       | StencilOp.DecWrap => MTLStencilOperationDecrementWrap
       end;
     ToMTLCompareFunction := fun c =>
       match c with
       | CompareOp.NeverPass => MTLCompareFunctionNever
       | CompareOp.Less => MTLCompareFunctionLess
       | CompareOp.Equal => MTLCompareFunctionEqual
       | CompareOp.LessEqual => MTLCompareFunctionLessEqual
       | CompareOp.Greater => MTLCompareFunctionGreater
       | CompareOp.NotEqual => MTLCompareFunctionNotEqual
       | CompareOp.GreaterEqual => MTLCompareFunctionGreaterEqual
       | CompareOp.AlwaysPass => MTLCompareFunctionAlways
       end;
     ToMTLBlendOperation := fun x => x;
     ToMTLBlendFactor := fun x => x;
     ToMTLPatchIndexType := fun x => x;
     ToMTLPartitionMode := fun x => x |}.

Definition no_static_blend_factor : PipelineStateUtils :=
  {| IsStaticBlendFactorEnabled := fun _ => false |}.

Definition macos : BuildEnv :=
  {| LLGL_OS_IOS := false; available_depthClipMode := true; available_inputTopology := true |}.

Definition ios : BuildEnv :=
  {| LLGL_OS_IOS := true; available_depthClipMode := true; available_inputTopology := true |}.

(** A device whose factories always succeed. *)
Definition accepting_device : MTLDevice :=
  {| newRenderPipelineStateWithDescriptor := fun _ => (Some 1, None);
     newComputePipelineStateWithFunction := fun _ => (Some 2, None);
     newDepthStencilStateWithDescriptor := fun _ => Some 3 |}.

(** A device whose render-pipeline factory rejects every descriptor. *)
Definition rejecting_device : MTLDevice :=
  {| newRenderPipelineStateWithDescriptor :=
       fun _ => (None, Some "incompatible attachment formats");
     newComputePipelineStateWithFunction := fun _ => (Some 2, None);
     newDepthStencilStateWithDescriptor := fun _ => Some 3 |}.

Definition target (enabled : bool) (factor : N) : BlendTargetDescriptor :=
  {| blendEnabled := enabled;
     srcColor := factor; dstColor := factor + 1; colorArithmetic := 0;
     srcAlpha := factor; dstAlpha := factor + 1; alphaArithmetic := 0;
     colorMask := {| cb_r := true; cb_g := true; cb_b := true; cb_a := enabled |} |}.

(** Eight targets, each one different from [targets[0]]. *)
Definition blend_of (independent : bool) : BlendDescriptor :=
  {| alphaToCoverageEnabled := false;
     independentBlendEnabled := independent;
     blendFactor := {| cf_r := 0%Z; cf_g := 0%Z; cf_b := 0%Z; cf_a := 0%Z |};
     blendFactorDynamic := false;
     targets := [# target true 10; target false 20; target false 30; target false 40;
                   target false 50; target false 60; target false 70; target false 80] |}.

Definition shader (patchControlPoints : N) : MTShader :=
  {| GetNative := Some {| functionId := 7; patchType := if 0 <? patchControlPoints then 1 else 0 |};
     GetNumPatchControlPoints := patchControlPoints;
     GetMTLVertexDesc := Some 8 |}.

Definition render_pass (colorFormats : list N) : MTRenderPass :=
  {| GetColorAttachments := map (fun f => {| pixelFormat := f |}) colorFormats;
     GetDepthAttachment := {| pixelFormat := 252 |};
     GetStencilAttachment := {| pixelFormat := 253 |};
     GetSampleCount := 4 |}.

Definition face (r : N) : StencilFaceDescriptor :=
  {| stencilFailOp := StencilOp.Replace; depthFailOp := StencilOp.Zero;
     depthPassOp := StencilOp.IncWrap; compareOp := CompareOp.Less;
     readMask := 255; writeMask := 255; reference := r |}.

Definition descriptor
    (vs tcs : option MTShader) (rp : option MTRenderPass) (independent : bool)
  : GraphicsPipelineDescriptor :=
  {| vertexShader := vs; tessControlShader := tcs; fragmentShader := None;
     renderPass := rp; primitiveTopology := 6;
     depth := {| depth_testEnabled := false; depth_writeEnabled := true;
                 depth_compareOp := CompareOp.Less |};
     stencil := {| stencil_testEnabled := false; referenceDynamic := false;
                   front := face 0; back := face 0 |};
     rasterizer := {| polygonMode := 0; cullMode := 0;
                      depthBias := {| constantFactor := 0%Z; slopeFactor := 0%Z; clamp := 0%Z |};
                      frontCCW := false; discardEnabled := false;
                      depthClampEnabled := false; multiSampleEnabled := false |};
     blend := blend_of independent;
     tessellation := {| partition := 0; indexFormat := 0; maxTessFactor := 100;
                        outputWindingCCW := false |} |}.

(** A freshly allocated object and an empty trace. *)
Definition fresh : World :=
  {| this := {| isGraphicsPSO := false;
                standalone := {| cullMode_ := 0; winding_ := MTLWindingClockwise;
                                 fillMode_ := 0; primitiveType_ := 0;
                                 clipMode_ := MTLDepthClipModeClip;
                                 depthBias_ := 0%Z; depthSlope_ := 0%Z; depthClamp_ := 0%Z;
                                 blendColorDynamic_ := false; blendColorEnabled_ := false;
                                 blendColor_ := (0%Z, 0%Z, 0%Z, 0%Z) |};
                pipeline := {| numPatchControlPoints_ := 0; patchType_ := 0;
                               renderPipelineState_ := None; tessPipelineState_ := None |};
                depthStencil := {| depthStencilState_ := None; stencilFrontRef_ := 0;
                                   stencilBackRef_ := 0; stencilRefDynamic_ := false |} |};
     trace := [] |}.

End Fixtures.

Section ConcreteInputs.
Import Fixtures.

#[local] Existing Instance namesake_tables.
#[local] Existing Instance no_static_blend_factor.

(** A render pass with nine colour attachments. *)
Definition nine_attachments : MTRenderPass :=
  render_pass [70; 71; 72; 73; 74; 75; 76; 77; 78].

Definition one_attachment : MTRenderPass := render_pass [80].

(** No tessellation, no tessellation-control stage. *)
Definition plain (rp : option MTRenderPass) (independent : bool) : GraphicsPipelineDescriptor :=
  descriptor (Some (shader 0)) None rp independent.

(** A post-tessellation vertex function with three control points and no
    tessellation-control stage. *)
Definition tess_without_control (rp : option MTRenderPass) : GraphicsPipelineDescriptor :=
  descriptor (Some (shader 3)) None rp false.

(** The object the constructor builds from the spec's end-to-end example
    (one attachment, no tessellation, static stencil references 0 and 0). *)
Definition end_to_end (env : BuildEnv) : MTGraphicsPSO :=
  this (snd (MTGraphicsPSO_ctor env accepting_device
               (plain (Some one_attachment) false) None fresh)).

(** The same with front reference 1 and back reference 2. *)
Definition two_references (env : BuildEnv) : MTGraphicsPSO :=
  this (snd (MTGraphicsPSO_ctor env accepting_device
               (with_stencil {| stencil_testEnabled := true; referenceDynamic := false;
                                front := face 1; back := face 2 |}
                  (plain (Some one_attachment) false)) None fresh)).

End ConcreteInputs.

(** ** Direct3D 11 storage buffer (D3D11StorageBuffer.cpp)

    The pure part of the class: the predicates on the storage type, the flag
    selectors, and the descriptors the constructor and [CreateUAV] /
    [CreateSRV] fill before they call the device.  The calls themselves go
    through the base class [D3D11Buffer] and [DXThrowIfFailed], which are not
    among the sources. *)

(** A value stored into a [UINT] member. *)
Definition to_UINT (x : N) : N := x mod 2 ^ 32.

(** Constants of d3d11.h. *)
Definition D3D11_BIND_SHADER_RESOURCE : N := 8.
Definition D3D11_BIND_UNORDERED_ACCESS : N := 128.
Definition D3D11_RESOURCE_MISC_BUFFER_ALLOW_RAW_VIEWS : N := 32.
Definition D3D11_RESOURCE_MISC_BUFFER_STRUCTURED : N := 64.
Definition D3D11_BUFFER_UAV_FLAG_RAW : N := 1.
Definition D3D11_BUFFER_UAV_FLAG_APPEND : N := 2.
Definition D3D11_BUFFER_UAV_FLAG_COUNTER : N := 4.

Inductive D3D11_USAGE := D3D11_USAGE_DEFAULT.
Inductive DXGI_FORMAT := DXGI_FORMAT_UNKNOWN | DXGI_FORMAT_R32_TYPELESS.
Inductive D3D11_UAV_DIMENSION := D3D11_UAV_DIMENSION_BUFFER.
Inductive D3D11_SRV_DIMENSION := D3D11_SRV_DIMENSION_BUFFER.

(** [enum class StorageBufferType] is declared in a header that is not
    among the sources: a value is its underlying integer, and the underlying
    values of the enumerators this file names are an interface the
    development is parametric in. *)
Definition StorageBufferType := N.

Class StorageBufferTypes := {
  RWBuffer                : StorageBufferType;
  StructuredBuffer        : StorageBufferType;
  RWStructuredBuffer      : StorageBufferType;
  AppendStructuredBuffer  : StorageBufferType;
  ConsumeStructuredBuffer : StorageBufferType;
  ByteAddressBuffer       : StorageBufferType;
  RWByteAddressBuffer     : StorageBufferType
}.

(** No byte-address enumerator shares its value with a structured one, as
    for any enumeration that does not assign values twice. *)
Definition byte_address_apart_from_structured {types : StorageBufferTypes} : Prop :=
  Forall (fun b => ~ In b [StructuredBuffer; RWStructuredBuffer;
                           AppendStructuredBuffer; ConsumeStructuredBuffer])
         [ByteAddressBuffer; RWByteAddressBuffer].

Record D3D11_BUFFER_DESC := {
  ByteWidth           : N;
  Usage               : D3D11_USAGE;
  BindFlags           : N;
  CPUAccessFlags      : N;
  MiscFlags           : N;
  StructureByteStride : N
}.

Record D3D11_UNORDERED_ACCESS_VIEW_DESC := {
  uav_Format        : DXGI_FORMAT;
  uav_ViewDimension : D3D11_UAV_DIMENSION;
  uav_FirstElement  : N;
  uav_NumElements   : N;
  uav_Flags         : N
}.

Record D3D11_SHADER_RESOURCE_VIEW_DESC := {
  srv_Format        : DXGI_FORMAT;
  srv_ViewDimension : D3D11_SRV_DIMENSION;
  srv_FirstElement  : N;
  srv_NumElements   : N
}.

(** The members of [BufferDescriptor] the constructor reads. *)
Record BufferDescriptor := {
  buf_size        : N;
  buf_storageType : StorageBufferType;
  buf_elements    : N
}.

Section D3D11StorageBuffer.
Context {types : StorageBufferTypes}.
Variable storageType_ : StorageBufferType.

(** [storageType_ >= StorageBufferType::RWBuffer]. *)
Definition IsUAV : bool := RWBuffer <=? storageType_.

Definition IsStructured : bool :=
  (storageType_ =? StructuredBuffer)
  || (storageType_ =? RWStructuredBuffer)
  || (storageType_ =? AppendStructuredBuffer)
  || (storageType_ =? ConsumeStructuredBuffer).

Definition IsByteAddressable : bool :=
  (storageType_ =? ByteAddressBuffer) || (storageType_ =? RWByteAddressBuffer).

Definition GetBindFlags : N :=
  if IsUAV then D3D11_BIND_UNORDERED_ACCESS else D3D11_BIND_SHADER_RESOURCE.

Definition GetMiscFlags : N :=
  if IsStructured then D3D11_RESOURCE_MISC_BUFFER_STRUCTURED
  else if IsByteAddressable then D3D11_RESOURCE_MISC_BUFFER_ALLOW_RAW_VIEWS
  else 0.

(** The braced block of [CreateUAV]: the descriptor handed to
    [CreateUnorderedAccessView]. *)
Definition CreateUAV_desc (firstElement numElements : N) : D3D11_UNORDERED_ACCESS_VIEW_DESC :=
  let Format := DXGI_FORMAT_UNKNOWN in
  let Flags := 0 in
  if IsByteAddressable then
    {| uav_Format := DXGI_FORMAT_R32_TYPELESS;
       uav_ViewDimension := D3D11_UAV_DIMENSION_BUFFER;
       uav_FirstElement := firstElement;
       uav_NumElements := numElements;
       uav_Flags := N.lor Flags D3D11_BUFFER_UAV_FLAG_RAW |}
  else if storageType_ =? AppendStructuredBuffer then
    {| uav_Format := Format;
       uav_ViewDimension := D3D11_UAV_DIMENSION_BUFFER;
       uav_FirstElement := firstElement;
       uav_NumElements := numElements;
       uav_Flags := N.lor Flags D3D11_BUFFER_UAV_FLAG_APPEND |}
  else if storageType_ =? ConsumeStructuredBuffer then
    {| uav_Format := Format;
       uav_ViewDimension := D3D11_UAV_DIMENSION_BUFFER;
       uav_FirstElement := firstElement;
       uav_NumElements := numElements;
       uav_Flags := N.lor Flags D3D11_BUFFER_UAV_FLAG_COUNTER |}
  else
    {| uav_Format := Format;
       uav_ViewDimension := D3D11_UAV_DIMENSION_BUFFER;
       uav_FirstElement := firstElement;
       uav_NumElements := numElements;
       uav_Flags := Flags |}.

(** The braced block of [CreateSRV]. *)
Definition CreateSRV_desc (firstElement numElements : N) : D3D11_SHADER_RESOURCE_VIEW_DESC :=
  {| srv_Format := DXGI_FORMAT_UNKNOWN;
     srv_ViewDimension := D3D11_SRV_DIMENSION_BUFFER;
     srv_FirstElement := firstElement;
     srv_NumElements := numElements |}.

End D3D11StorageBuffer.

(** The braced block of the constructor, after
    [storageType_ = desc.storageBuffer.storageType]: the descriptor handed to
    [CreateResource].  [desc.size / desc.storageBuffer.elements] is an
    unsigned division; with zero elements its behaviour is undefined and
    there is no descriptor. *)
Definition D3D11StorageBuffer_bufferDesc {types : StorageBufferTypes} (desc : BufferDescriptor)
  : option D3D11_BUFFER_DESC :=
  let storageType_ := buf_storageType desc in
  if buf_elements desc =? 0 then None
  else Some {| ByteWidth           := to_UINT (buf_size desc);
               Usage               := D3D11_USAGE_DEFAULT;
               BindFlags           := GetBindFlags storageType_;
               CPUAccessFlags      := 0;
               MiscFlags           := GetMiscFlags storageType_;
               StructureByteStride := to_UINT (buf_size desc / buf_elements desc) |}.

(** The view the constructor goes on to create, over all the elements:
    [CreateUAV(device, 0, elements)] for a UAV type, [CreateSRV(device, 0,
    elements)] otherwise. *)
Definition D3D11StorageBuffer_view {types : StorageBufferTypes} (desc : BufferDescriptor)
  : D3D11_UNORDERED_ACCESS_VIEW_DESC + D3D11_SHADER_RESOURCE_VIEW_DESC :=
  let storageType_ := buf_storageType desc in
  if IsUAV storageType_
  then inl (CreateUAV_desc storageType_ 0 (to_UINT (buf_elements desc)))
  else inr (CreateSRV_desc 0 (to_UINT (buf_elements desc))).

(** Underlying values to run the definitions on. *)
Definition sample_storage_types : StorageBufferTypes :=
  {| StructuredBuffer := 2; ByteAddressBuffer := 3; RWBuffer := 4;
     RWStructuredBuffer := 5; RWByteAddressBuffer := 6;
     AppendStructuredBuffer := 7; ConsumeStructuredBuffer := 8 |}.


(** Three patch control points and a tessellation-control stage. *)
Definition tess_with_control (rp : option MTRenderPass) : GraphicsPipelineDescriptor :=
  Fixtures.descriptor (Some (Fixtures.shader 3)) (Some (Fixtures.shader 0)) rp false.

(** ** Proofs *)

Lemma events_since_app w w' evs :
  trace w' = trace w ++ evs -> events_since w w' = evs.
Proof. intros H. unfold events_since. rewrite H. by rewrite drop_app_length. Qed.

Lemma events_since_same w o : events_since w {| this := o; trace := trace w |} = [].
Proof. apply events_since_app. cbn. by rewrite app_nil_r. Qed.

(** Membership in a list that is spelt out: found, or impossible. *)
Ltac in_list := cbn; repeat (first [left; reflexivity | right]).
Ltac absurd_membership H :=
  cbn in H; repeat (destruct H as [H|H]; [discriminate H|]); destruct H.

(** Goals about a list of encoder messages that is spelt out. *)
Ltac bind_shape_goal :=
  match goal with
  | |- _ /\ _ => split; bind_shape_goal
  | |- _ <-> _ => split; bind_shape_goal
  | |- _ = _ => reflexivity
  | |- (_ <= _)%nat => cbn; lia
  | |- _ -> _ =>
      first
        [ discriminate
        | let H := fresh in
          intros H;
          first [ reflexivity
                | solve [in_list]
                | solve [eexists _, _, _, _; in_list]
                | solve [absurd_membership H]
                | solve [destruct H as (? & ? & ? & ? & H); absurd_membership H] ] ]
  end.

(** [w'] extends the trace of [w] by the events spelt out on the right. *)
Ltac trace_extended :=
  apply events_since_app; cbn; rewrite <- ?app_assoc; reflexivity.

(** ** The colour-attachment loop *)

Section Loop.
Context {tables : MTTypes}.
Variable desc : GraphicsPipelineDescriptor.
Variable cas : list MTAttachmentFormat.

Lemma target_index_lt i : (i < 8)%nat -> (target_index desc i < 8)%nat.
Proof. unfold target_index. destruct (independentBlendEnabled _); lia. Qed.

Lemma blend_target_defined i :
  (i < 8)%nat -> is_Some (vec_to_list (targets (blend desc)) !! i).
Proof. intros Hi. apply lookup_lt_is_Some. by rewrite length_vec_to_list. Qed.

Lemma colorAttachment_body_run i slots w :
  (i < Nat.min (length cas) 8)%nat ->
  length slots = 8%nat ->
  exists d,
    filled_slot desc cas i = Some d /\
    colorAttachment_body desc cas i slots w
    = (Ok (<[i := Some d]> slots),
       {| this := this w;
          trace := trace w ++ [ReadColorAttachment i; ReadBlendTarget (target_index desc i)] |}).
Proof.
  intros Hi Hlen.
  assert (Hc : (i < length cas)%nat) by lia.
  assert (H8 : (i < 8)%nat) by lia.
  destruct (lookup_lt_is_Some_2 cas i Hc) as [a Ha].
  destruct (blend_target_defined (target_index desc i) (target_index_lt i H8)) as [t Ht].
  exists (FillColorAttachmentDesc (pixelFormat a) (blend desc) t). split.
  - unfold filled_slot. rewrite decide_True by done. by rewrite Ha, Ht.
  - unfold colorAttachment_body, read_colorAttachment, read_blendTarget,
      write_colorAttachment, bind, emit, ret.
    fold (target_index desc i). rewrite Ha. cbn. rewrite Ht. cbn.
    rewrite decide_True by lia. by rewrite <- app_assoc.
Qed.

Lemma for_range_colorAttachments count : forall i slots w,
  (i + count <= Nat.min (length cas) 8)%nat ->
  length slots = 8%nat ->
  exists slots',
    for_range count i (colorAttachment_body desc cas) slots w
    = (Ok slots', {| this := this w; trace := trace w ++ loop_reads desc i count |}) /\
    length slots' = 8%nat /\
    forall j, slots' !! j
              = if decide (i <= j < i + count)%nat then Some (filled_slot desc cas j) else slots !! j.
Proof.
  induction count as [|c IH]; intros i slots w Hle Hlen.
  - exists slots. cbn. unfold ret, loop_reads. cbn. rewrite app_nil_r.
    destruct w; split_and!; [done..|].
    intros j. rewrite decide_False by lia. done.
  - destruct (colorAttachment_body_run i slots w) as (d & Hd & Hrun); [lia|done|].
    destruct (IH (S i) (<[i := Some d]> slots)
                {| this := this w;
                   trace := trace w ++
                     [ReadColorAttachment i; ReadBlendTarget (target_index desc i)] |})
      as (slots' & Hloop & Hlen' & Hlook); [lia|by rewrite length_insert|].
    exists slots'. split_and!; [|done|].
    + cbn [for_range]. unfold bind at 1. rewrite Hrun, Hloop. cbn.
      unfold loop_reads. cbn. by rewrite <- app_assoc.
    + intros j. rewrite Hlook.
      destruct (decide (j = i)) as [->|Hne].
      * rewrite decide_False by lia. rewrite decide_True by lia.
        rewrite list_lookup_insert_eq by lia. by rewrite Hd.
      * rewrite list_lookup_insert_ne by done.
        destruct (decide (S i <= j < S i + c)%nat), (decide (i <= j < i + S c)%nat);
          done || lia.
Qed.

Lemma lookup_filled_slots j :
  filled_slots desc cas !! j = if decide (j < 8)%nat then Some (filled_slot desc cas j) else None.
Proof.
  unfold filled_slots.
  do 8 (destruct j as [|j]; [reflexivity|]). reflexivity.
Qed.

Lemma filled_slot_ge j : (Nat.min (length cas) 8 <= j)%nat -> filled_slot desc cas j = None.
Proof. intros H. unfold filled_slot. by rewrite decide_False by lia. Qed.

(** The whole loop, started on the untouched attachment array. *)
Lemma colorAttachment_loop_run w :
  for_range (Nat.min (length cas) 8) 0 (colorAttachment_body desc cas) (replicate 8 None) w
  = (Ok (filled_slots desc cas),
     {| this := this w; trace := trace w ++ loop_reads desc 0 (Nat.min (length cas) 8) |}).
Proof.
  destruct (for_range_colorAttachments (Nat.min (length cas) 8) 0 (replicate 8 None) w)
    as (slots' & Hrun & Hlen & Hlook); [lia|done|].
  rewrite Hrun. f_equal. f_equal. apply list_eq. intros j.
  rewrite Hlook, lookup_filled_slots.
  destruct (decide (0 <= j < 0 + Nat.min (length cas) 8)%nat) as [Hin|Hout].
  - by rewrite decide_True by lia.
  - destruct (decide (j < 8)%nat) as [H8|H8].
    + rewrite lookup_replicate_2 by done. by rewrite filled_slot_ge by lia.
    + apply lookup_replicate_None. lia.
Qed.

End Loop.

(** ** Symbolic runs of the builders *)

Section Runs.
Context {tables : MTTypes} {utils : PipelineStateUtils}.

Lemma numPatch_after_patch_query vs o :
  numPatchControlPoints_ (pipeline (after_patch_query vs o)) = GetNumPatchControlPoints vs.
Proof. unfold after_patch_query. by destruct (GetNative vs). Qed.

Lemma psoDesc_run env desc vs rp w :
  CreateRenderPipelineState_psoDesc env desc vs rp w
  = (Ok (psoDesc_properties env desc vs rp
           (filled_slots desc (GetColorAttachments rp))
           (numPatchControlPoints_ (pipeline (this w)))),
     {| this := this w; trace := trace w ++ attachment_reads desc rp |}).
Proof.
  unfold CreateRenderPipelineState_psoDesc, bind at 1.
  by rewrite colorAttachment_loop_run.
Qed.

Lemma CreateRenderPipelineState_no_vertex env device desc drp w :
  vertexShader desc = None ->
  CreateRenderPipelineState env device desc drp w
  = (Throw (InvalidArgument msg_no_vertex_shader), w).
Proof. intros H. unfold CreateRenderPipelineState. rewrite H. reflexivity. Qed.

Lemma CreateRenderPipelineState_no_render_pass env device desc drp w vs :
  vertexShader desc = Some vs ->
  spec_effectiveRenderPass desc drp = None ->
  CreateRenderPipelineState env device desc drp w
  = (Throw (InvalidArgument msg_no_render_pass),
     {| this := after_patch_query vs (this w); trace := trace w |}).
Proof.
  intros Hvs Hrp. unfold spec_effectiveRenderPass in Hrp.
  unfold CreateRenderPipelineState, after_patch_query. rewrite Hvs.
  destruct (renderPass desc); [done|]. subst drp.
  unfold bind, ret, throw, modify_this. cbn.
  destruct (GetNative vs); reflexivity.
Qed.

Lemma CreateRenderPipelineState_run env device desc drp w vs rp :
  vertexShader desc = Some vs ->
  spec_effectiveRenderPass desc drp = Some rp ->
  let pd := translated_psoDesc env desc vs rp in
  let w1 := after_primary_creation env device desc vs rp w in
  CreateRenderPipelineState env device desc drp w
  = match fst (newRenderPipelineStateWithDescriptor device pd) with
    | None =>
        (Throw (BackendCreationFailed "MTLRenderPipelineState"
                  (snd (newRenderPipelineStateWithDescriptor device pd))), w1)
    | Some _ =>
        if 0 <? GetNumPatchControlPoints vs then
          match tessControlShader desc with
          | Some ts =>
              let c := newComputePipelineStateWithFunction device (GetNative ts) in
              (match fst c with
               | Some _ => Ok tt
               | None => Throw (BackendCreationFailed "MTLComputePipelineState" (snd c))
               end,
               {| this := set_tessPipelineState_ (fst c) (this w1);
                  trace := trace w1 ++ [NewComputePipelineState (GetNative ts)] |})
          | None => (Throw (InvalidArgument msg_no_tess_shader), w1)
          end
        else (Ok tt, w1)
    end.
Proof.
  intros Hvs Hrp pd w1.
  assert (Hres :
    (match renderPass desc with
     | Some rp0 => ret rp0
     | None => match drp with
               | Some rp0 => ret rp0
               | None => throw (InvalidArgument msg_no_render_pass)
               end
     end) = ret (A:=MTRenderPass) rp).
  { unfold spec_effectiveRenderPass in Hrp.
    destruct (renderPass desc); [by inversion Hrp|]. by subst drp. }
  unfold CreateRenderPipelineState. rewrite Hvs.
  fold msg_no_render_pass. rewrite Hres.
  set (o1 := after_patch_query vs (this w)).
  assert (Hpatch :
    (modify_this (set_numPatchControlPoints_ (GetNumPatchControlPoints vs)) ;;
     (match GetNative vs with
      | Some vertexFunc => modify_this (set_patchType_ (patchType vertexFunc))
      | None => ret tt
      end))%pso w = (Ok tt, {| this := o1; trace := trace w |})).
  { unfold o1, after_patch_query. by destruct (GetNative vs). }
  unfold bind at 1. cbn [ret].
  unfold bind at 1. unfold bind at 1 in Hpatch.
  cbn [modify_this] in *.
  destruct (GetNative vs) eqn:Hnat.
  all: cbn in Hpatch; inversion Hpatch as [Ho1]; clear Hpatch.
  all: unfold bind at 1; cbn [modify_this].
  all: unfold bind at 1; cbn [ret].
  all: unfold bind at 1; rewrite psoDesc_run; cbn [this trace].
  all: rewrite Ho1.
  all: assert (Hn : numPatchControlPoints_ (pipeline o1) = GetNumPatchControlPoints vs)
         by apply numPatch_after_patch_query.
  all: rewrite Hn; fold (translated_psoDesc env desc vs rp); fold pd.
  all: unfold bind, send_newRenderPipelineState, send_newComputePipelineState,
         MTThrowIfCreateFailed, emit, ret, throw, modify_this, get_this; cbn.
  all: subst w1; unfold after_primary_creation; fold pd; cbn.
  all: rewrite <- !app_assoc; cbn.
  all: destruct (newRenderPipelineStateWithDescriptor device pd) as [[h|] err]; cbn;
         [|reflexivity].
  all: rewrite Hn.
  all: destruct (0 <? GetNumPatchControlPoints vs); [|reflexivity].
  all: destruct (tessControlShader desc) as [ts|]; [|reflexivity].
  all: cbn; rewrite <- !app_assoc; cbn.
  all: by destruct (newComputePipelineStateWithFunction device (GetNative ts)) as [[h'|] err'].
Qed.

Lemma CreateDepthStencilState_run device desc w :
  CreateDepthStencilState device desc w
  = (Ok tt,
     {| this := set_depthStencilState_
                  (newDepthStencilStateWithDescriptor device
                     (CreateDepthStencilState_desc desc))
                  (set_stencilRefs (reference (front (stencil desc)))
                                   (reference (back (stencil desc)))
                                   (referenceDynamic (stencil desc)) (this w));
        trace := trace w ++ [NewDepthStencilState (CreateDepthStencilState_desc desc)] |}).
Proof. reflexivity. Qed.

Lemma MTGraphicsPSO_ctor_run env device desc drp w :
  MTGraphicsPSO_ctor env device desc drp w
  = match CreateRenderPipelineState env device desc drp
            {| this := after_standalone desc (this w); trace := trace w |} with
    | (Ok _, w1) => CreateDepthStencilState device desc w1
    | (Throw e, w1) => (Throw e, w1)
    | (Undefined, w1) => (Undefined, w1)
    end.
Proof. reflexivity. Qed.

End Runs.

(** ** Translation as a whole: which events the constructor leaves behind *)

Section Translate.
Context {tables : MTTypes} {utils : PipelineStateUtils}.

(** Once the vertex shader and the render pass are there, the constructor
    reads the attachments, asks for the render pipeline, and whatever follows
    is a compute-pipeline or depth-stencil creation. *)
Lemma MTGraphicsPSO_ctor_events env device desc drp w vs rp :
  vertexShader desc = Some vs ->
  spec_effectiveRenderPass desc drp = Some rp ->
  exists rest,
    events_since w (snd (MTGraphicsPSO_ctor env device desc drp w))
    = attachment_reads desc rp
      ++ NewRenderPipelineState (translated_psoDesc env desc vs rp) :: rest /\
    Forall is_tail_creation rest /\
    fst (MTGraphicsPSO_ctor env device desc drp w) <> Undefined.
Proof.
  intros Hvs Hrp.
  rewrite MTGraphicsPSO_ctor_run.
  rewrite (CreateRenderPipelineState_run env device desc drp _ vs rp Hvs Hrp).
  set (pd := translated_psoDesc env desc vs rp).
  unfold after_primary_creation. fold pd. cbn [this trace].
  destruct (newRenderPipelineStateWithDescriptor device pd) as [[h|] err]; cbn [fst snd].
  2:{ exists []. split_and!; [|constructor|done].
      trace_extended. }
  destruct (0 <? GetNumPatchControlPoints vs).
  - destruct (tessControlShader desc) as [ts|].
    + cbn zeta.
      destruct (newComputePipelineStateWithFunction device (GetNative ts)) as [[h'|] err'];
        cbn [fst snd].
      * rewrite CreateDepthStencilState_run. cbn [fst snd this trace].
        exists [NewComputePipelineState (GetNative ts);
                NewDepthStencilState (CreateDepthStencilState_desc desc)].
        split_and!; [|repeat constructor|done].
        trace_extended.
      * exists [NewComputePipelineState (GetNative ts)].
        split_and!; [|repeat constructor|done].
        trace_extended.
    + exists []. split_and!; [|constructor|done].
      trace_extended.
  - rewrite CreateDepthStencilState_run. cbn [fst snd this trace].
    exists [NewDepthStencilState (CreateDepthStencilState_desc desc)].
    split_and!; [|repeat constructor|done].
    trace_extended.
Qed.

Lemma in_loop_reads_colorAttachment desc i k c :
  In (ReadColorAttachment i) (loop_reads desc k c) <-> (k <= i < k + c)%nat.
Proof.
  unfold loop_reads. rewrite in_flat_map. split.
  - intros (j & Hj & Hin). apply in_seq in Hj.
    destruct Hin as [Heq|[Heq|[]]]; [|discriminate]. inversion Heq. lia.
  - intros Hi. exists i. split; [apply in_seq; lia|]. by left.
Qed.

Lemma in_loop_reads_blendTarget desc i k c :
  In (ReadBlendTarget i) (loop_reads desc k c) -> (k + c <= 8)%nat -> (i < 8)%nat.
Proof.
  unfold loop_reads. rewrite in_flat_map.
  intros (j & Hj & Hin) Hle. apply in_seq in Hj.
  destruct Hin as [Heq|[Heq|[]]]; [discriminate|]. inversion Heq.
  apply target_index_lt. lia.
Qed.

Lemma filled_slots_take desc cas :
  filled_slots desc (take 8 cas) = filled_slots desc cas.
Proof.
  apply list_eq. intros j. rewrite !lookup_filled_slots.
  destruct (decide (j < 8)%nat) as [Hj|]; [|done].
  f_equal. unfold filled_slot.
  rewrite length_take, lookup_take_lt by done.
  replace (Nat.min (Nat.min 8 (length cas)) 8) with (Nat.min (length cas) 8) by lia.
  done.
Qed.

Lemma translated_psoDesc_take env desc vs rp :
  translated_psoDesc env desc vs (with_colorAttachments (take 8 (GetColorAttachments rp)) rp)
  = translated_psoDesc env desc vs rp.
Proof.
  unfold translated_psoDesc, with_colorAttachments. cbn [GetColorAttachments].
  rewrite filled_slots_take. reflexivity.
Qed.

Lemma attachment_reads_take desc rp :
  attachment_reads desc (with_colorAttachments (take 8 (GetColorAttachments rp)) rp)
  = attachment_reads desc rp.
Proof.
  unfold attachment_reads, with_colorAttachments. cbn [GetColorAttachments].
  rewrite length_take.
  by replace (Nat.min (Nat.min 8 (length (GetColorAttachments rp))) 8)
    with (Nat.min (length (GetColorAttachments rp)) 8) by lia.
Qed.

Lemma in_tail_not_read rest e :
  Forall is_tail_creation rest -> In e rest -> is_tail_creation e.
Proof. intros HF Hin. rewrite Forall_forall in HF. apply HF. by apply list_elem_of_In. Qed.

(** C1.  Truncation of the colour attachments: whenever the translation
    gets as far as the render pass, the descriptor handed to the native
    factory has its attachment slots populated for exactly the indices below
    min(count, 8), each from the render-pass attachment of the same index;
    the slots from there up to 8 are untouched; the attachments read are
    exactly those of index below min(count, 8) and every blend target read
    has an index below 8; the run never leaves the bounds of an array; and a
    render pass with more than eight attachments is translated exactly like
    the render pass made of its first eight. *)
Theorem color_attachments_truncated_to_eight env device desc drp w vs rp :
  vertexShader desc = Some vs ->
  spec_effectiveRenderPass desc drp = Some rp ->
  let cas := GetColorAttachments rp in
  let n := Nat.min (length cas) 8 in
  let r := MTGraphicsPSO_ctor env device desc drp w in
  exists pd,
    In (NewRenderPipelineState pd) (events_since w (snd r)) /\
    (forall pd', In (NewRenderPipelineState pd') (events_since w (snd r)) -> pd' = pd) /\
    length (pso_colorAttachments pd) = 8%nat /\
    (forall i, (i < n)%nat ->
       exists a t,
         cas !! i = Some a /\
         vec_to_list (targets (blend desc))
           !! (if independentBlendEnabled (blend desc) then i else 0%nat) = Some t /\
         pso_colorAttachments pd !! i
         = Some (Some (FillColorAttachmentDesc (pixelFormat a) (blend desc) t))) /\
    (forall i, (n <= i < 8)%nat -> pso_colorAttachments pd !! i = Some None) /\
    (forall i, In (ReadColorAttachment i) (events_since w (snd r)) <-> (i < n)%nat) /\
    (forall i, In (ReadBlendTarget i) (events_since w (snd r)) -> (i < 8)%nat) /\
    fst r <> Undefined /\
    MTGraphicsPSO_ctor env device
      (with_renderPass (Some (with_colorAttachments (take 8 cas) rp)) desc) drp w = r.
Proof.
  intros Hvs Hrp cas n r.
  destruct (MTGraphicsPSO_ctor_events env device desc drp w vs rp Hvs Hrp)
    as (rest & Hev & Hrest & Hdef).
  fold r in Hev, Hdef.
  exists (translated_psoDesc env desc vs rp). rewrite Hev.
  split_and!.
  - apply in_app_iff. right. by left.
  - intros pd' Hin. apply in_app_iff in Hin as [Hin|[Heq|Hin]].
    + unfold attachment_reads, loop_reads in Hin. apply in_flat_map in Hin.
      destruct Hin as (j & _ & [Heq|[Heq|[]]]); discriminate.
    + by inversion Heq.
    + by apply (in_tail_not_read _ _ Hrest) in Hin.
  - reflexivity.
  - intros i Hi. cbn [translated_psoDesc psoDesc_properties pso_colorAttachments].
    unfold translated_psoDesc, psoDesc_properties. cbn [pso_colorAttachments].
    rewrite lookup_filled_slots, decide_True by lia.
    unfold filled_slot. fold cas. fold n. rewrite decide_True by done.
    destruct (lookup_lt_is_Some_2 cas i ltac:(lia)) as [a Ha].
    destruct (blend_target_defined desc (target_index desc i)
                (target_index_lt desc i ltac:(lia))) as [t Ht].
    exists a, t. fold (target_index desc i). rewrite Ha, Ht. done.
  - intros i Hi. unfold translated_psoDesc, psoDesc_properties. cbn [pso_colorAttachments].
    rewrite lookup_filled_slots, decide_True by lia.
    by rewrite filled_slot_ge by (fold cas; lia).
  - intros i. rewrite in_app_iff. split.
    + intros [Hin|[Heq|Hin]].
      * apply in_loop_reads_colorAttachment in Hin. fold cas in Hin. lia.
      * discriminate.
      * by apply (in_tail_not_read _ _ Hrest) in Hin.
    + intros Hi. left. apply in_loop_reads_colorAttachment. fold cas. lia.
  - intros i. rewrite in_app_iff. intros [Hin|[Heq|Hin]].
    + apply in_loop_reads_blendTarget in Hin; [done|lia].
    + discriminate.
    + by apply (in_tail_not_read _ _ Hrest) in Hin.
  - done.
  - subst r. rewrite !MTGraphicsPSO_ctor_run.
    change (after_standalone (with_renderPass _ desc)) with (after_standalone desc).
    set (w0 := {| this := after_standalone desc (this w); trace := trace w |}).
    rewrite (CreateRenderPipelineState_run env device desc drp w0 vs rp Hvs Hrp).
    rewrite (CreateRenderPipelineState_run env device
               (with_renderPass (Some (with_colorAttachments (take 8 cas) rp)) desc)
               drp w0 vs (with_colorAttachments (take 8 cas) rp) Hvs eq_refl).
    unfold after_primary_creation.
    change (translated_psoDesc env (with_renderPass ?x desc)) with (translated_psoDesc env desc).
    change (attachment_reads (with_renderPass ?x desc)) with (attachment_reads desc).
    subst cas. rewrite translated_psoDesc_take, attachment_reads_take.
    reflexivity.
Qed.

(** The render-pipeline factory is asked exactly once, for
    [translated_psoDesc]. *)
Lemma factory_descriptor env device desc drp w vs rp :
  vertexShader desc = Some vs ->
  spec_effectiveRenderPass desc drp = Some rp ->
  let evs := events_since w (snd (MTGraphicsPSO_ctor env device desc drp w)) in
  In (NewRenderPipelineState (translated_psoDesc env desc vs rp)) evs /\
  (forall pd, In (NewRenderPipelineState pd) evs -> pd = translated_psoDesc env desc vs rp).
Proof.
  intros Hvs Hrp evs.
  destruct (MTGraphicsPSO_ctor_events env device desc drp w vs rp Hvs Hrp)
    as (rest & Hev & Hrest & _).
  subst evs. rewrite Hev. split.
  - apply in_app_iff. right. by left.
  - intros pd Hin. apply in_app_iff in Hin as [Hin|[Heq|Hin]].
    + unfold attachment_reads, loop_reads in Hin. apply in_flat_map in Hin.
      destruct Hin as (j & _ & [Heq|[Heq|[]]]); discriminate.
    + by inversion Heq.
    + by apply (in_tail_not_read _ _ Hrest) in Hin.
Qed.

Lemma blend_target_zero (b : BlendDescriptor) :
  vec_to_list (targets b) !! 0%nat = Some (targets b !!! 0%fin).
Proof. by apply (vlookup_lookup (targets b) 0%fin). Qed.

(** C2.  Independent blending: slot [i] of the descriptor handed to the
    native factory is filled from [blend.targets[i]] when
    [independentBlendEnabled] is set and from [blend.targets[0]] when it is
    not, whatever [blend.targets[i]] holds: blend enable, write mask and the
    six factors and operations all come from the selected target. *)
Theorem independent_blend_selects_target env device desc drp w vs rp i a t :
  vertexShader desc = Some vs ->
  spec_effectiveRenderPass desc drp = Some rp ->
  GetColorAttachments rp !! i = Some a ->
  vec_to_list (targets (blend desc)) !! i = Some t ->
  let selected :=
    if independentBlendEnabled (blend desc) then t else targets (blend desc) !!! 0%fin in
  exists pd d,
    In (NewRenderPipelineState pd)
       (events_since w (snd (MTGraphicsPSO_ctor env device desc drp w))) /\
    pso_colorAttachments pd !! i = Some (Some d) /\
    d = FillColorAttachmentDesc (pixelFormat a) (blend desc) selected /\
    blendingEnabled d = (if blendEnabled selected then YES else NO) /\
    ca_writeMask d = ToMTLColorWriteMask (colorMask selected) /\
    rgbBlendOperation d = ToMTLBlendOperation (colorArithmetic selected) /\
    alphaBlendOperation d = ToMTLBlendOperation (alphaArithmetic selected) /\
    sourceRGBBlendFactor d = ToMTLBlendFactor (srcColor selected) /\
    destinationRGBBlendFactor d = ToMTLBlendFactor (dstColor selected) /\
    sourceAlphaBlendFactor d = ToMTLBlendFactor (srcAlpha selected) /\
    destinationAlphaBlendFactor d = ToMTLBlendFactor (dstAlpha selected).
Proof.
  intros Hvs Hrp Ha Ht selected.
  destruct (factory_descriptor env device desc drp w vs rp Hvs Hrp) as [Hin _].
  exists (translated_psoDesc env desc vs rp),
         (FillColorAttachmentDesc (pixelFormat a) (blend desc) selected).
  split_and!; try done.
  assert (H8 : (i < 8)%nat).
  { apply lookup_lt_Some in Ht. by rewrite length_vec_to_list in Ht. }
  assert (Hc : (i < length (GetColorAttachments rp))%nat) by by apply lookup_lt_Some in Ha.
  unfold translated_psoDesc, psoDesc_properties. cbn [pso_colorAttachments].
  rewrite lookup_filled_slots, decide_True by done.
  unfold filled_slot. rewrite decide_True by lia. rewrite Ha.
  subst selected. unfold target_index.
  destruct (independentBlendEnabled (blend desc)).
  - by rewrite Ht.
  - by rewrite blend_target_zero.
Qed.

(** C9.  Clamping of the tessellation factor: with a vertex stage that
    reports patch control points, the descriptor handed to the native factory
    carries min(desc.tessellation.maxTessFactor, L), with L = 16 when
    [LLGL_OS_IOS] is defined and L = 64 otherwise. *)
Theorem max_tessellation_factor_clamped env device desc drp w vs rp :
  vertexShader desc = Some vs ->
  spec_effectiveRenderPass desc drp = Some rp ->
  0 < GetNumPatchControlPoints vs ->
  let evs := events_since w (snd (MTGraphicsPSO_ctor env device desc drp w)) in
  exists pd tess,
    In (NewRenderPipelineState pd) evs /\
    (forall pd', In (NewRenderPipelineState pd') evs -> pd' = pd) /\
    pso_tessellation pd = Some tess /\
    maxTessellationFactor tess
    = N.min (maxTessFactor (tessellation desc)) (spec_tessFactorLimit env) /\
    spec_tessFactorLimit env = (if LLGL_OS_IOS env then 16 else 64).
Proof.
  intros Hvs Hrp Hpos evs.
  destruct (factory_descriptor env device desc drp w vs rp Hvs Hrp) as [Hin Huniq].
  apply N.ltb_lt in Hpos.
  unfold translated_psoDesc, psoDesc_properties in Hin, Huniq.
  rewrite Hpos in Hin, Huniq.
  eexists _, _. split_and!; [exact Hin|exact Huniq|reflexivity| |reflexivity].
  cbn [maxTessellationFactor]. unfold spec_tessFactorLimit.
  by destruct (LLGL_OS_IOS env).
Qed.

(** C4.  Missing vertex stage: the constructor throws
    [std::invalid_argument] before anything is asked of the device; the trace
    and the native handles of the object are as they were. *)
Theorem null_vertex_shader_is_invalid_argument env device desc drp w :
  vertexShader desc = None ->
  let r := MTGraphicsPSO_ctor env device desc drp w in
  fst r = Throw (InvalidArgument "cannot create Metal pipeline without vertex shader") /\
  trace (snd r) = trace w /\
  native_creations (events_since w (snd r)) = [] /\
  pipeline (this (snd r)) = pipeline (this w) /\
  depthStencil (this (snd r)) = depthStencil (this w).
Proof.
  intros Hvs r. subst r.
  rewrite MTGraphicsPSO_ctor_run, CreateRenderPipelineState_no_vertex by done.
  cbn [fst snd trace this after_standalone pipeline depthStencil].
  split_and!; try done.
  by rewrite (events_since_app w _ []) by (cbn; by rewrite app_nil_r).
Qed.

(** C5.  Resolution of the render pass: the constructor behaves as if it
    had been given the spec's effective render pass (the explicit
    [desc.renderPass] when there is one, else the default one) as the default
    and no explicit one; the descriptor handed to the native factory takes its
    attachment formats and sample count from that render pass; and when both
    are null the constructor throws [std::invalid_argument] without asking
    anything of the device. *)
Theorem render_pass_resolution env device desc drp w :
  let r := MTGraphicsPSO_ctor env device desc drp w in
  r = MTGraphicsPSO_ctor env device (with_renderPass None desc)
        (spec_effectiveRenderPass desc drp) w /\
  match renderPass desc, drp with
  | Some rp, _ => spec_effectiveRenderPass desc drp = Some rp
  | None, Some rp => spec_effectiveRenderPass desc drp = Some rp
  | None, None =>
      spec_effectiveRenderPass desc drp = None /\
      (exists what, fst r = Throw (InvalidArgument what)) /\
      trace (snd r) = trace w
  end /\
  match spec_effectiveRenderPass desc drp, vertexShader desc with
  | Some rp, Some vs =>
      exists pd,
        In (NewRenderPipelineState pd) (events_since w (snd r)) /\
        depthAttachmentPixelFormat pd = pixelFormat (GetDepthAttachment rp) /\
        stencilAttachmentPixelFormat pd = pixelFormat (GetStencilAttachment rp) /\
        rasterSampleCount pd
        = (if multiSampleEnabled (rasterizer desc) then GetSampleCount rp else 1) /\
        (forall i a, (i < 8)%nat -> GetColorAttachments rp !! i = Some a ->
           exists d, pso_colorAttachments pd !! i = Some (Some d) /\
                     ca_pixelFormat d = pixelFormat a)
  | Some _, None =>
      fst r = Throw (InvalidArgument "cannot create Metal pipeline without vertex shader")
  | None, Some _ =>
      fst r = Throw (InvalidArgument "cannot create graphics pipeline without render pass")
  | None, None =>
      fst r = Throw (InvalidArgument "cannot create Metal pipeline without vertex shader")
  end.
Proof.
  intros r. split_and!.
  - subst r. rewrite !MTGraphicsPSO_ctor_run.
    change (after_standalone (with_renderPass None desc)) with (after_standalone desc).
    set (w0 := {| this := after_standalone desc (this w); trace := trace w |}).
    destruct (vertexShader desc) as [vs|] eqn:Hvs.
    + destruct (spec_effectiveRenderPass desc drp) as [rp|] eqn:Hrp.
      * rewrite (CreateRenderPipelineState_run env device desc drp w0 vs rp Hvs Hrp).
        rewrite (CreateRenderPipelineState_run env device (with_renderPass None desc)
                   (Some rp) w0 vs rp Hvs eq_refl).
        reflexivity.
      * rewrite (CreateRenderPipelineState_no_render_pass env device desc drp w0 vs Hvs Hrp).
        rewrite (CreateRenderPipelineState_no_render_pass env device
                   (with_renderPass None desc) None w0 vs Hvs eq_refl).
        reflexivity.
    + rewrite !CreateRenderPipelineState_no_vertex by done. reflexivity.
  - unfold spec_effectiveRenderPass.
    destruct (renderPass desc) as [rp|] eqn:Hexp; [done|].
    destruct drp as [rp|]; [done|].
    split_and!; [done| |].
    + subst r. rewrite MTGraphicsPSO_ctor_run.
      destruct (vertexShader desc) as [vs|] eqn:Hvs.
      * rewrite (CreateRenderPipelineState_no_render_pass env device desc None _ vs Hvs)
          by (unfold spec_effectiveRenderPass; by rewrite Hexp).
        by eexists.
      * rewrite CreateRenderPipelineState_no_vertex by done. by eexists.
    + subst r. rewrite MTGraphicsPSO_ctor_run.
      destruct (vertexShader desc) as [vs|] eqn:Hvs.
      * by rewrite (CreateRenderPipelineState_no_render_pass env device desc None _ vs Hvs)
          by (unfold spec_effectiveRenderPass; by rewrite Hexp).
      * by rewrite CreateRenderPipelineState_no_vertex by done.
  - destruct (spec_effectiveRenderPass desc drp) as [rp|] eqn:Hrp;
      destruct (vertexShader desc) as [vs|] eqn:Hvs.
    + destruct (factory_descriptor env device desc drp w vs rp Hvs Hrp) as [Hin _].
      exists (translated_psoDesc env desc vs rp). split_and!; try done.
      intros i a H8 Ha.
      assert (Hc : (i < length (GetColorAttachments rp))%nat) by by apply lookup_lt_Some in Ha.
      destruct (blend_target_defined desc (target_index desc i)
                  (target_index_lt desc i H8)) as [t Ht].
      exists (FillColorAttachmentDesc (pixelFormat a) (blend desc) t). split; [|done].
      unfold translated_psoDesc, psoDesc_properties. cbn [pso_colorAttachments].
      rewrite lookup_filled_slots, decide_True by done.
      unfold filled_slot. rewrite decide_True by lia. by rewrite Ha, Ht.
    + subst r. rewrite MTGraphicsPSO_ctor_run.
      by rewrite CreateRenderPipelineState_no_vertex by done.
    + subst r. rewrite MTGraphicsPSO_ctor_run.
      by rewrite (CreateRenderPipelineState_no_render_pass env device desc drp _ vs Hvs Hrp).
    + subst r. rewrite MTGraphicsPSO_ctor_run.
      by rewrite CreateRenderPipelineState_no_vertex by done.
Qed.

(** The constructor from the factory call onwards, in closed form. *)
Lemma MTGraphicsPSO_ctor_closed env device desc drp w vs rp :
  vertexShader desc = Some vs ->
  spec_effectiveRenderPass desc drp = Some rp ->
  let pd := translated_psoDesc env desc vs rp in
  let w1 := after_primary_creation env device desc vs rp
              {| this := after_standalone desc (this w); trace := trace w |} in
  MTGraphicsPSO_ctor env device desc drp w
  = match fst (newRenderPipelineStateWithDescriptor device pd) with
    | None =>
        (Throw (BackendCreationFailed "MTLRenderPipelineState"
                  (snd (newRenderPipelineStateWithDescriptor device pd))), w1)
    | Some _ =>
        if 0 <? GetNumPatchControlPoints vs then
          match tessControlShader desc with
          | Some ts =>
              let c := newComputePipelineStateWithFunction device (GetNative ts) in
              let w2 := {| this := set_tessPipelineState_ (fst c) (this w1);
                           trace := trace w1 ++ [NewComputePipelineState (GetNative ts)] |} in
              match fst c with
              | Some _ => CreateDepthStencilState device desc w2
              | None => (Throw (BackendCreationFailed "MTLComputePipelineState" (snd c)), w2)
              end
          | None => (Throw (InvalidArgument msg_no_tess_shader), w1)
          end
        else CreateDepthStencilState device desc w1
    end.
Proof.
  intros Hvs Hrp pd w1.
  rewrite MTGraphicsPSO_ctor_run.
  rewrite (CreateRenderPipelineState_run env device desc drp _ vs rp Hvs Hrp).
  fold pd. fold w1.
  destruct (fst (newRenderPipelineStateWithDescriptor device pd)); [|done].
  destruct (0 <? GetNumPatchControlPoints vs); [|done].
  destruct (tessControlShader desc) as [ts|]; [|done].
  cbn zeta. by destruct (fst (newComputePipelineStateWithFunction device (GetNative ts))).
Qed.

Lemma native_creations_loop_reads desc c : forall k,
  native_creations (loop_reads desc k c) = [].
Proof. induction c as [|c IH]; intros k; [done|]. cbn. apply IH. Qed.

Lemma native_creations_after_reads desc rp l :
  native_creations (attachment_reads desc rp ++ l) = native_creations l.
Proof.
  unfold native_creations, attachment_reads. rewrite List.filter_app.
  fold (native_creations (loop_reads desc 0 (Nat.min (length (GetColorAttachments rp)) 8))).
  by rewrite native_creations_loop_reads.
Qed.

Lemma not_in_reads_RPS desc rp pd :
  ~ In (NewRenderPipelineState pd) (attachment_reads desc rp).
Proof.
  unfold attachment_reads, loop_reads. rewrite in_flat_map.
  intros (j & _ & [Heq|[Heq|[]]]); discriminate.
Qed.

Lemma not_in_reads_CPS desc rp f :
  ~ In (NewComputePipelineState f) (attachment_reads desc rp).
Proof.
  unfold attachment_reads, loop_reads. rewrite in_flat_map.
  intros (j & _ & [Heq|[Heq|[]]]); discriminate.
Qed.

(** C3, as the code has it.  The vertex stage's patch-control-point count
    gates everything about tessellation.  With a count of 0 the descriptor
    handed to the native factory has no tessellation property assigned, no
    compute pipeline is asked for, the member [tessPipelineState_] is left
    alone, the run is the same whatever the tessellation-control handle is,
    and the constructor succeeds exactly when the render-pipeline factory was
    reached and returned an object.  With a positive count and a null
    tessellation-control handle the constructor always fails: with
    [std::invalid_argument] when no render pass resolves or when the
    render-pipeline factory, asked first, returned an object, and with the
    factory's own failure when it returned none. *)
Theorem tessellation_gated_by_patch_control_points env device desc drp w vs :
  vertexShader desc = Some vs ->
  let r := MTGraphicsPSO_ctor env device desc drp w in
  let evs := events_since w (snd r) in
  (GetNumPatchControlPoints vs = 0 ->
     (forall pd, In (NewRenderPipelineState pd) evs -> pso_tessellation pd = None) /\
     (forall f, ~ In (NewComputePipelineState f) evs) /\
     tessPipelineState_ (pipeline (this (snd r))) = tessPipelineState_ (pipeline (this w)) /\
     (forall tcs, MTGraphicsPSO_ctor env device (with_tessControlShader tcs desc) drp w = r) /\
     (fst r = Ok tt <->
      exists pd h, In (NewRenderPipelineState pd) evs /\
                   fst (newRenderPipelineStateWithDescriptor device pd) = Some h)) /\
  (0 < GetNumPatchControlPoints vs -> tessControlShader desc = None ->
     fst r <> Ok tt /\
     match spec_effectiveRenderPass desc drp with
     | None =>
         fst r = Throw (InvalidArgument "cannot create graphics pipeline without render pass")
     | Some rp =>
         exists pd,
           In (NewRenderPipelineState pd) evs /\
           fst r
           = match newRenderPipelineStateWithDescriptor device pd with
             | (Some _, _) =>
                 Throw (InvalidArgument
                   "cannot create Metal tessellation pipeline without tessellation compute shader")
             | (None, error) =>
                 Throw (BackendCreationFailed "MTLRenderPipelineState" error)
             end
     end).
Proof.
  intros Hvs r evs.
  destruct (spec_effectiveRenderPass desc drp) as [rp|] eqn:Hrp.
  - pose proof (MTGraphicsPSO_ctor_closed env device desc drp w vs rp Hvs Hrp) as Hrun.
    pose proof (factory_descriptor env device desc drp w vs rp Hvs Hrp) as [Hin Huniq].
    fold r in Hrun, Hin, Huniq. fold evs in Hin, Huniq.
    set (pd := translated_psoDesc env desc vs rp) in *.
    cbv zeta in Hrun. fold pd in Hrun.
    split.
    + intros Hzero. rewrite Hzero in Hrun. change (0 <? 0) with false in Hrun.
      assert (Htcs : forall tcs,
                MTGraphicsPSO_ctor env device (with_tessControlShader tcs desc) drp w = r).
      { intros tcs. rewrite Hrun.
        rewrite (MTGraphicsPSO_ctor_closed env device (with_tessControlShader tcs desc)
                   drp w vs rp Hvs Hrp).
        rewrite Hzero. reflexivity. }
      split_and!; [| | |exact Htcs|].
      * intros pd' Hin'. rewrite (Huniq pd' Hin').
        unfold pd, translated_psoDesc, psoDesc_properties. rewrite Hzero. reflexivity.
      * intros f Hf. subst evs.
        destruct (MTGraphicsPSO_ctor_events env device desc drp w vs rp Hvs Hrp)
          as (rest & Hev & _ & _).
        fold r in Hev.
        assert (Hrest : rest = [] \/
                        rest = [NewDepthStencilState (CreateDepthStencilState_desc desc)]).
        { rewrite Hrun in Hev.
          destruct (fst (newRenderPipelineStateWithDescriptor device pd)).
          - right. rewrite CreateDepthStencilState_run in Hev.
            unfold after_primary_creation in Hev. cbn [snd trace] in Hev.
            rewrite (events_since_app w _
              (attachment_reads desc rp ++
               [NewRenderPipelineState pd;
                NewDepthStencilState (CreateDepthStencilState_desc desc)])) in Hev
              by (cbn; rewrite <- ?app_assoc; reflexivity).
            apply app_inv_head in Hev. by inversion Hev.
          - left. unfold after_primary_creation in Hev. cbn [snd trace] in Hev.
            rewrite (events_since_app w _
              (attachment_reads desc rp ++ [NewRenderPipelineState pd])) in Hev
              by (cbn; rewrite <- ?app_assoc; reflexivity).
            apply app_inv_head in Hev. by inversion Hev. }
        rewrite Hev in Hf. apply in_app_iff in Hf as [Hf|[Hf|Hf]].
        -- by apply not_in_reads_CPS in Hf.
        -- discriminate.
        -- destruct Hrest as [->| ->]; [done|]. by destruct Hf as [Hf|[]].
      * rewrite Hrun.
        destruct (fst (newRenderPipelineStateWithDescriptor device pd));
          [rewrite CreateDepthStencilState_run|];
          unfold after_primary_creation; cbn [snd this]; unfold after_patch_query;
          by destruct (GetNative vs).
      * split.
        -- intros Hok. exists pd. rewrite Hrun in Hok.
           destruct (fst (newRenderPipelineStateWithDescriptor device pd)) as [h|];
             [by exists h|discriminate].
        -- intros (pd' & h & Hin' & Hh). rewrite (Huniq pd' Hin') in Hh.
           rewrite Hrun. rewrite Hh. by rewrite CreateDepthStencilState_run.
    + intros Hpos Htcs. apply N.ltb_lt in Hpos. rewrite Hpos, Htcs in Hrun.
      split.
      * rewrite Hrun.
        by destruct (fst (newRenderPipelineStateWithDescriptor device pd)).
      * exists pd. split; [done|]. rewrite Hrun.
        by destruct (newRenderPipelineStateWithDescriptor device pd) as [[h|] err].
  - assert (Hrun : forall tcs,
              MTGraphicsPSO_ctor env device (with_tessControlShader tcs desc) drp w
              = (Throw (InvalidArgument msg_no_render_pass),
                 {| this := after_patch_query vs (after_standalone desc (this w));
                    trace := trace w |})).
    { intros tcs. rewrite MTGraphicsPSO_ctor_run.
      by rewrite (CreateRenderPipelineState_no_render_pass env device
                    (with_tessControlShader tcs desc) drp _ vs Hvs Hrp). }
    assert (Hr : r = (Throw (InvalidArgument msg_no_render_pass),
                      {| this := after_patch_query vs (after_standalone desc (this w));
                         trace := trace w |})).
    { subst r. rewrite MTGraphicsPSO_ctor_run.
      by rewrite (CreateRenderPipelineState_no_render_pass env device desc drp _ vs Hvs Hrp). }
    assert (Hevs : evs = []).
    { subst evs. rewrite Hr. apply events_since_same. }
    split.
    + intros Hzero. rewrite Hevs. split_and!; try done.
      * by intros f [].
      * rewrite Hr. cbn [snd this]. unfold after_patch_query. by destruct (GetNative vs).
      * intros tcs. by rewrite Hrun, Hr.
      * rewrite Hr. split; [discriminate|]. by intros (pd & h & [] & _).
    + intros _ _. by rewrite Hr.
Qed.

(** C10.  When the constructor throws [std::invalid_argument], either it
    is for the missing tessellation compute shader, and then the vertex stage
    reports patch control points, the tessellation-control handle is null,
    exactly one native creation call has been made (the render pipeline), it
    returned an object and that object is held in [renderPipelineState_]; or
    it is for the missing vertex shader or render pass, and then no native
    creation call has been made.  The first case does arise: with patch
    control points, a null tessellation-control handle, a render pass and a
    factory call that returns an object, this is what the constructor
    throws. *)
Theorem missing_tess_shader_raised_after_primary_creation env device desc drp w :
  let r := MTGraphicsPSO_ctor env device desc drp w in
  let evs := events_since w (snd r) in
  (forall what, fst r = Throw (InvalidArgument what) ->
    (what = "cannot create Metal tessellation pipeline without tessellation compute shader" /\
     (exists vs, vertexShader desc = Some vs /\ 0 < GetNumPatchControlPoints vs) /\
     tessControlShader desc = None /\
     exists pd h,
       native_creations evs = [NewRenderPipelineState pd] /\
       fst (newRenderPipelineStateWithDescriptor device pd) = Some h /\
       renderPipelineState_ (pipeline (this (snd r))) = Some h)
    \/
    ((what = "cannot create Metal pipeline without vertex shader" \/
      what = "cannot create graphics pipeline without render pass") /\
     native_creations evs = [] /\
     renderPipelineState_ (pipeline (this (snd r)))
     = renderPipelineState_ (pipeline (this w))))
  /\
  (forall vs rp pd h,
     vertexShader desc = Some vs -> 0 < GetNumPatchControlPoints vs ->
     tessControlShader desc = None ->
     spec_effectiveRenderPass desc drp = Some rp ->
     In (NewRenderPipelineState pd) evs ->
     fst (newRenderPipelineStateWithDescriptor device pd) = Some h ->
     fst r = Throw (InvalidArgument
       "cannot create Metal tessellation pipeline without tessellation compute shader")).
Proof.
  intros r evs. split.
  2:{ intros vs rp pd h Hvs Hpos Htcs Hrp Hin Hh.
      destruct (factory_descriptor env device desc drp w vs rp Hvs Hrp) as [_ Huniq].
      rewrite (Huniq pd Hin) in Hh.
      subst r. rewrite (MTGraphicsPSO_ctor_closed env device desc drp w vs rp Hvs Hrp).
      apply N.ltb_lt in Hpos. by rewrite Hh, Hpos, Htcs. }
  intros what Hthrow.
  destruct (vertexShader desc) as [vs|] eqn:Hvs.
  2:{ assert (Hr : r = (Throw (InvalidArgument msg_no_vertex_shader),
                        {| this := after_standalone desc (this w); trace := trace w |})).
      { subst r. rewrite MTGraphicsPSO_ctor_run.
        by rewrite CreateRenderPipelineState_no_vertex by done. }
      right. subst evs. rewrite Hr in Hthrow |- *. inversion Hthrow.
      cbn [snd]. rewrite events_since_same. by split_and!; [left|..]. }
  destruct (spec_effectiveRenderPass desc drp) as [rp|] eqn:Hrp.
  2:{ assert (Hr : r = (Throw (InvalidArgument msg_no_render_pass),
                        {| this := after_patch_query vs (after_standalone desc (this w));
                           trace := trace w |})).
      { subst r. rewrite MTGraphicsPSO_ctor_run.
        by rewrite (CreateRenderPipelineState_no_render_pass env device desc drp _ vs Hvs Hrp). }
      right. subst evs. rewrite Hr in Hthrow |- *. inversion Hthrow.
      cbn [snd]. rewrite events_since_same. split_and!; [by right|done|].
      cbn [snd this]. unfold after_patch_query. by destruct (GetNative vs). }
  pose proof (MTGraphicsPSO_ctor_closed env device desc drp w vs rp Hvs Hrp) as Hrun.
  fold r in Hrun.
  set (pd := translated_psoDesc env desc vs rp) in *.
  cbv zeta in Hrun. fold pd in Hrun.
  assert (Hcase :
    what = msg_no_tess_shader /\ (0 <? GetNumPatchControlPoints vs) = true /\
    tessControlShader desc = None /\
    exists h, fst (newRenderPipelineStateWithDescriptor device pd) = Some h /\
              r = (Throw (InvalidArgument msg_no_tess_shader),
                   after_primary_creation env device desc vs rp
                     {| this := after_standalone desc (this w); trace := trace w |})).
  { rewrite Hrun in Hthrow.
    destruct (fst (newRenderPipelineStateWithDescriptor device pd)) as [h|] eqn:Hh;
      [|discriminate].
    destruct (0 <? GetNumPatchControlPoints vs);
      [|by rewrite CreateDepthStencilState_run in Hthrow].
    destruct (tessControlShader desc) as [ts|].
    - cbv zeta in Hthrow.
      destruct (fst (newComputePipelineStateWithFunction device (GetNative ts)));
        [by rewrite CreateDepthStencilState_run in Hthrow|discriminate].
    - inversion Hthrow. split_and!; try done. by exists h. }
  destruct Hcase as (Hwhat & Hpos & Htcs & h & Hh & Hr).
  left. split_and!; [done| |done|].
  - exists vs. split; [done|]. by apply N.ltb_lt.
  - exists pd, h. subst evs. rewrite Hr. unfold after_primary_creation. cbn [snd this trace].
    fold pd. rewrite Hh. split_and!; [|done|done].
    rewrite (events_since_app w _ (attachment_reads desc rp ++ [NewRenderPipelineState pd]))
      by (cbn; rewrite <- ?app_assoc; reflexivity).
    by rewrite native_creations_after_reads.
Qed.

(** ** Depth and stencil state *)

Lemma CreateRenderPipelineState_with_stencil env device desc drp x w :
  CreateRenderPipelineState env device (with_stencil x desc) drp w
  = CreateRenderPipelineState env device desc drp w.
Proof. reflexivity. Qed.

(** C6.  A disabled stencil test installs, on both faces, keep / keep /
    keep / always with read and write mask 0.  Provided the conversion tables
    send [StencilOp::Keep] and [CompareOp::AlwaysPass] to their Metal
    namesakes, the whole construction (native descriptors handed to the
    device, members of the object) and therefore every later [Bind] is the
    same as for the descriptor with the test enabled and both faces set to
    exactly these values (reference values unchanged). *)
Theorem disabled_stencil_installs_neutral_faces env device desc drp w :
  ToMTLStencilOperation StencilOp.Keep = MTLStencilOperationKeep ->
  ToMTLCompareFunction CompareOp.AlwaysPass = MTLCompareFunctionAlways ->
  stencil_testEnabled (stencil desc) = false ->
  let neutral :=
    {| stencilFailureOperation   := MTLStencilOperationKeep;
       depthFailureOperation     := MTLStencilOperationKeep;
       depthStencilPassOperation := MTLStencilOperationKeep;
       stencilCompareFunction    := MTLCompareFunctionAlways;
       sd_readMask               := 0;
       sd_writeMask              := 0 |} in
  let explicit :=
    with_stencil
      {| stencil_testEnabled := true;
         referenceDynamic := referenceDynamic (stencil desc);
         front := spec_disabledStencilFace (reference (front (stencil desc)));
         back  := spec_disabledStencilFace (reference (back (stencil desc))) |} desc in
  (forall w1, exists dsd,
     events_since w1 (snd (CreateDepthStencilState device desc w1))
     = [NewDepthStencilState dsd] /\
     frontFaceStencil dsd = neutral /\ backFaceStencil dsd = neutral) /\
  MTGraphicsPSO_ctor env device explicit drp w = MTGraphicsPSO_ctor env device desc drp w /\
  (forall env',
     Bind env' (this (snd (MTGraphicsPSO_ctor env device explicit drp w)))
     = Bind env' (this (snd (MTGraphicsPSO_ctor env device desc drp w)))).
Proof.
  intros Hkeep Halways Hoff neutral explicit.
  assert (Hdesc : CreateDepthStencilState_desc explicit = CreateDepthStencilState_desc desc).
  { unfold CreateDepthStencilState_desc, explicit, Convert, FillDefaultMTStencilDesc.
    cbn. rewrite Hoff, Hkeep, Halways. reflexivity. }
  assert (Hctor : MTGraphicsPSO_ctor env device explicit drp w
                  = MTGraphicsPSO_ctor env device desc drp w).
  { rewrite !MTGraphicsPSO_ctor_run.
    change (after_standalone explicit) with (after_standalone desc).
    unfold explicit at 1. rewrite CreateRenderPipelineState_with_stencil.
    destruct (CreateRenderPipelineState env device desc drp _) as [[[]|e|] w1]; try done.
    rewrite !CreateDepthStencilState_run, Hdesc. reflexivity. }
  split_and!.
  - intros w1. exists (CreateDepthStencilState_desc desc).
    rewrite CreateDepthStencilState_run. cbn [snd].
    split_and!.
    + by apply events_since_app.
    + unfold CreateDepthStencilState_desc. cbn. by rewrite Hoff.
    + unfold CreateDepthStencilState_desc. cbn. by rewrite Hoff.
  - exact Hctor.
  - intros env'. by rewrite Hctor.
Qed.

(** C7.  The depth state handed to the device takes its write flag from
    [depth.writeEnabled] whatever [depth.testEnabled] is, and its compare
    function from [depth.compareOp] when the test is enabled and "always"
    when it is not; the state object made from it is the one [Bind] sets.  In
    particular a disabled test with writes enabled gives a state with depth
    writes on and compare function "always". *)
Theorem depth_write_flag_independent_of_test device desc w :
  let r := CreateDepthStencilState device desc w in
  exists dsd,
    fst r = Ok tt /\
    events_since w (snd r) = [NewDepthStencilState dsd] /\
    depthStencilState_ (depthStencil (this (snd r)))
    = newDepthStencilStateWithDescriptor device dsd /\
    (forall env,
       In (setDepthStencilState (newDepthStencilStateWithDescriptor device dsd))
          (Bind env (this (snd r)))) /\
    depthWriteEnabled dsd = (if depth_writeEnabled (depth desc) then YES else NO) /\
    depthCompareFunction dsd
    = (if depth_testEnabled (depth desc)
       then ToMTLCompareFunction (depth_compareOp (depth desc))
       else MTLCompareFunctionAlways) /\
    (forall op,
       let forced := with_depth {| depth_testEnabled := false;
                                   depth_writeEnabled := true;
                                   depth_compareOp := op |} desc in
       depthWriteEnabled (CreateDepthStencilState_desc forced) = YES /\
       depthCompareFunction (CreateDepthStencilState_desc forced) = MTLCompareFunctionAlways /\
       events_since w (snd (CreateDepthStencilState device forced w))
       = [NewDepthStencilState (CreateDepthStencilState_desc forced)]).
Proof.
  intros r. exists (CreateDepthStencilState_desc desc).
  subst r. rewrite CreateDepthStencilState_run. cbn [fst snd this].
  split_and!.
  - reflexivity.
  - by apply events_since_app.
  - reflexivity.
  - intros env. unfold Bind. cbn. right. by left.
  - reflexivity.
  - reflexivity.
  - intros op. split_and!; [reflexivity..|].
    rewrite CreateDepthStencilState_run. by apply events_since_app.
Qed.

End Translate.

(** ** Bind and the stencil reference *)

(** Where lines 85-95 are compiled, [Bind] sends the single-value message
    for equal references, the paired one for different references, and none
    for a dynamic reference. *)
Lemma Bind_stencil_reference_compiled env pso :
  LLGL_OS_IOS env = false ->
  stencil_reference_commands env pso
  = if stencilRefDynamic_ (depthStencil pso) then []
    else if stencilFrontRef_ (depthStencil pso) =? stencilBackRef_ (depthStencil pso)
         then [setStencilReferenceValue (stencilFrontRef_ (depthStencil pso))]
         else [setStencilFrontReferenceValue_backReferenceValue
                 (stencilFrontRef_ (depthStencil pso)) (stencilBackRef_ (depthStencil pso))].
Proof.
  intros Hos. unfold stencil_reference_commands, Bind. rewrite Hos.
  destruct (available_depthClipMode env), (stencilRefDynamic_ (depthStencil pso)),
    (stencilFrontRef_ (depthStencil pso) =? stencilBackRef_ (depthStencil pso)),
    (blendColorEnabled_ (standalone pso)); cbn;
    try reflexivity; by destruct (blendColor_ (standalone pso)) as [[[? ?] ?] ?].
Qed.

(** Where [LLGL_OS_IOS] is defined, [Bind] never sends a stencil-reference
    message, nor the depth bias. *)
Lemma Bind_stencil_reference_ios env pso :
  LLGL_OS_IOS env = true ->
  stencil_reference_commands env pso = [].
Proof.
  intros Hos. unfold stencil_reference_commands, Bind. rewrite Hos.
  destruct (available_depthClipMode env), (blendColorEnabled_ (standalone pso)); cbn;
    try reflexivity; by destruct (blendColor_ (standalone pso)) as [[[? ?] ?] ?].
Qed.

(** The constructor stores the descriptor's reference values and its
    dynamic flag. *)
Lemma ctor_stores_stencil_references
    {tables : MTTypes} {utils : PipelineStateUtils} env device desc drp w :
  fst (MTGraphicsPSO_ctor env device desc drp w) = Ok tt ->
  depthStencil (this (snd (MTGraphicsPSO_ctor env device desc drp w)))
  = {| depthStencilState_ :=
         newDepthStencilStateWithDescriptor device (CreateDepthStencilState_desc desc);
       stencilFrontRef_ := reference (front (stencil desc));
       stencilBackRef_ := reference (back (stencil desc));
       stencilRefDynamic_ := referenceDynamic (stencil desc) |}.
Proof.
  rewrite MTGraphicsPSO_ctor_run.
  destruct (CreateRenderPipelineState env device desc drp _) as [[[]|e|] w1]; done.
Qed.

(** X12.  A constructed object bound on a build that compiles lines 85-95: the
    stencil-reference messages follow the descriptor. *)
Lemma Bind_after_ctor_stencil_reference
    {tables : MTTypes} {utils : PipelineStateUtils} env device desc drp w env' :
  fst (MTGraphicsPSO_ctor env device desc drp w) = Ok tt ->
  LLGL_OS_IOS env' = false ->
  stencil_reference_commands env' (this (snd (MTGraphicsPSO_ctor env device desc drp w)))
  = if referenceDynamic (stencil desc) then []
    else if reference (front (stencil desc)) =? reference (back (stencil desc))
         then [setStencilReferenceValue (reference (front (stencil desc)))]
         else [setStencilFrontReferenceValue_backReferenceValue
                 (reference (front (stencil desc))) (reference (back (stencil desc)))].
Proof.
  intros Hok Hos.
  rewrite Bind_stencil_reference_compiled by done.
  by rewrite ctor_stores_stencil_references by done.
Qed.

(** ** The statements at concrete inputs *)

Section Concrete.
Import Fixtures.

#[local] Existing Instance namesake_tables.
#[local] Existing Instance no_static_blend_factor.

Lemma color_attachments_truncated_to_eight_witness :
  exists pd,
    In (NewRenderPipelineState pd)
       (events_since fresh
          (snd (MTGraphicsPSO_ctor macos accepting_device
                  (plain (Some nine_attachments) true) None fresh))) /\
    length (pso_colorAttachments pd) = 8%nat /\
    (forall i, In (ReadColorAttachment i)
                 (events_since fresh
                    (snd (MTGraphicsPSO_ctor macos accepting_device
                            (plain (Some nine_attachments) true) None fresh)))
               <-> (i < 8)%nat).
Proof.
  destruct (color_attachments_truncated_to_eight macos accepting_device
              (plain (Some nine_attachments) true) None fresh
              (shader 0) nine_attachments eq_refl eq_refl)
    as (pd & Hin & _ & Hlen & _ & _ & Hreads & _).
  exists pd. split; [exact Hin|]. split; [exact Hlen|]. exact Hreads.
Defined.

Lemma independent_blend_selects_target_witness :
  exists pd d,
    In (NewRenderPipelineState pd)
       (events_since fresh
          (snd (MTGraphicsPSO_ctor macos accepting_device
                  (plain (Some nine_attachments) false) None fresh))) /\
    pso_colorAttachments pd !! 1%nat = Some (Some d) /\
    d = FillColorAttachmentDesc 71 (blend_of false) (target true 10) /\
    blendingEnabled d = YES.
Proof.
  destruct (independent_blend_selects_target macos accepting_device
              (plain (Some nine_attachments) false) None fresh
              (shader 0) nine_attachments 1%nat {| pixelFormat := 71 |} (target false 20)
              eq_refl eq_refl eq_refl eq_refl)
    as (pd & d & Hin & Hslot & Hd & Hen & _).
  exists pd, d. split; [exact Hin|]. split; [exact Hslot|]. split; [exact Hd|exact Hen].
Defined.

Lemma max_tessellation_factor_clamped_witness :
  exists pd tess,
    In (NewRenderPipelineState pd)
       (events_since fresh
          (snd (MTGraphicsPSO_ctor ios accepting_device
                  (tess_without_control (Some one_attachment)) None fresh))) /\
    pso_tessellation pd = Some tess /\
    maxTessellationFactor tess = 16.
Proof.
  destruct (max_tessellation_factor_clamped ios accepting_device
              (tess_without_control (Some one_attachment)) None fresh
              (shader 3) one_attachment eq_refl eq_refl eq_refl)
    as (pd & tess & Hin & _ & Htess & Hmax & _).
  exists pd, tess. split; [exact Hin|]. split; [exact Htess|exact Hmax].
Defined.

Lemma null_vertex_shader_is_invalid_argument_witness :
  fst (MTGraphicsPSO_ctor macos accepting_device
         (descriptor None None (Some one_attachment) false) None fresh)
  = Throw (InvalidArgument "cannot create Metal pipeline without vertex shader") /\
  trace (snd (MTGraphicsPSO_ctor macos accepting_device
                (descriptor None None (Some one_attachment) false) None fresh)) = [].
Proof.
  destruct (null_vertex_shader_is_invalid_argument macos accepting_device
              (descriptor None None (Some one_attachment) false) None fresh eq_refl)
    as (Hthrow & Htrace & _).
  split; [exact Hthrow|exact Htrace].
Defined.

Lemma render_pass_resolution_witness :
  MTGraphicsPSO_ctor macos accepting_device (plain (Some one_attachment) false)
    (Some nine_attachments) fresh
  = MTGraphicsPSO_ctor macos accepting_device (plain None false) (Some one_attachment) fresh.
Proof.
  exact (proj1 (render_pass_resolution macos accepting_device
                  (plain (Some one_attachment) false) (Some nine_attachments) fresh)).
Defined.

Lemma tessellation_gated_by_patch_control_points_witness :
  fst (MTGraphicsPSO_ctor macos accepting_device
         (tess_without_control (Some one_attachment)) None fresh) <> Ok tt.
Proof.
  exact (proj1 (proj2 (tessellation_gated_by_patch_control_points macos accepting_device
                         (tess_without_control (Some one_attachment)) None fresh
                         (shader 3) eq_refl)
                 eq_refl eq_refl)).
Defined.

(** C3 as the spec states it fails: patch control points, no
    tessellation-control stage, and a factory that rejects the descriptor.
    The constructor throws the factory's failure, not
    [std::invalid_argument]. *)
Lemma tessellation_gating_counterexample :
  let desc := tess_without_control (Some one_attachment) in
  let r := MTGraphicsPSO_ctor macos rejecting_device desc None fresh in
  (exists vs, vertexShader desc = Some vs /\ 0 < GetNumPatchControlPoints vs) /\
  tessControlShader desc = None /\
  fst r = Throw (BackendCreationFailed "MTLRenderPipelineState"
                   (Some "incompatible attachment formats")) /\
  ~ (exists what, fst r = Throw (InvalidArgument what)).
Proof.
  cbv zeta. split_and!.
  - exists (shader 3). split; reflexivity.
  - reflexivity.
  - vm_compute. reflexivity.
  - intros [what H]. vm_compute in H. discriminate H.
Defined.

Lemma missing_tess_shader_raised_after_primary_creation_witness :
  exists pd h,
    native_creations
      (events_since fresh
         (snd (MTGraphicsPSO_ctor macos accepting_device
                 (tess_without_control (Some one_attachment)) None fresh)))
    = [NewRenderPipelineState pd] /\
    fst (newRenderPipelineStateWithDescriptor accepting_device pd) = Some h /\
    renderPipelineState_
      (pipeline (this (snd (MTGraphicsPSO_ctor macos accepting_device
                              (tess_without_control (Some one_attachment)) None fresh))))
    = Some h.
Proof.
  destruct (proj1 (missing_tess_shader_raised_after_primary_creation macos accepting_device
                     (tess_without_control (Some one_attachment)) None fresh)
              "cannot create Metal tessellation pipeline without tessellation compute shader"
              eq_refl)
    as [(_ & _ & _ & pd & h & H)|[[Hw|Hw] _]].
  - exists pd, h. exact H.
  - discriminate Hw.
  - discriminate Hw.
Defined.

Lemma disabled_stencil_installs_neutral_faces_witness :
  MTGraphicsPSO_ctor macos accepting_device
    (with_stencil
       {| stencil_testEnabled := true; referenceDynamic := false;
          front := spec_disabledStencilFace 0; back := spec_disabledStencilFace 0 |}
       (plain (Some one_attachment) false)) None fresh
  = MTGraphicsPSO_ctor macos accepting_device (plain (Some one_attachment) false) None fresh.
Proof.
  exact (proj1 (proj2 (disabled_stencil_installs_neutral_faces macos accepting_device
                         (plain (Some one_attachment) false) None fresh
                         eq_refl eq_refl eq_refl))).
Defined.

(** C8 on a build with [LLGL_OS_IOS]: the object is constructed, its
    reference is static, and [Bind] sends no stencil-reference message at
    all, neither the single-value one for equal references nor the paired one
    for different references; the same objects bound on a build without the
    macro get the single-value, respectively the paired message. *)
Theorem Bind_on_ios_sends_no_stencil_reference :
  fst (MTGraphicsPSO_ctor ios accepting_device
         (plain (Some one_attachment) false) None fresh) = Ok tt /\
  stencilRefDynamic_ (depthStencil (end_to_end ios)) = false /\
  stencilRefDynamic_ (depthStencil (two_references ios)) = false /\
  Bind ios (end_to_end ios)
  = [ setRenderPipelineState (Some 1); setDepthStencilState (Some 3);
      setCullMode 0; setFrontFacingWinding MTLWindingClockwise;
      setTriangleFillMode 0; setDepthClipMode MTLDepthClipModeClip ] /\
  stencil_reference_commands ios (end_to_end ios) = [] /\
  stencil_reference_commands ios (two_references ios) = [] /\
  stencil_reference_commands macos (end_to_end macos) = [setStencilReferenceValue 0] /\
  stencil_reference_commands macos (two_references macos)
  = [setStencilFrontReferenceValue_backReferenceValue 1 2].
Proof. split_and!; vm_compute; reflexivity. Qed.

End Concrete.

(** ** Further properties of the Metal pipeline state object *)

Section Coverage.
Context {tables : MTTypes} {utils : PipelineStateUtils}.

(** X8.  Lines 113-127: the write mask has bit 3 for red, bit 2 for green,
    bit 1 for blue and bit 0 for alpha, nothing above bit 3, and determines
    the colour mask it was made from. *)
Theorem ToMTLColorWriteMask_bits (c : ColorRGBAb) :
  N.testbit (ToMTLColorWriteMask c) 3 = cb_r c /\
  N.testbit (ToMTLColorWriteMask c) 2 = cb_g c /\
  N.testbit (ToMTLColorWriteMask c) 1 = cb_b c /\
  N.testbit (ToMTLColorWriteMask c) 0 = cb_a c /\
  ToMTLColorWriteMask c < 16 /\
  (forall c', ToMTLColorWriteMask c' = ToMTLColorWriteMask c -> c' = c).
Proof.
  destruct c as [[] [] [] []]; split_and!; try (vm_compute; reflexivity).
  all: intros [[] [] [] []] H; vm_compute in H; congruence.
Qed.

(** X1.  Lines 44-72 and 226-244: the constructor succeeds exactly when there
    is a vertex shader, a render pass resolves, the render-pipeline factory
    returns an object for the translated descriptor and, if the vertex stage
    reports patch control points, there is a tessellation-control shader for
    which the compute-pipeline factory returns an object. *)
Theorem ctor_succeeds_iff env device desc drp w :
  fst (MTGraphicsPSO_ctor env device desc drp w) = Ok tt <->
  exists vs rp h,
    vertexShader desc = Some vs /\
    spec_effectiveRenderPass desc drp = Some rp /\
    fst (newRenderPipelineStateWithDescriptor device (translated_psoDesc env desc vs rp))
    = Some h /\
    (GetNumPatchControlPoints vs = 0 \/
     exists ts h',
       tessControlShader desc = Some ts /\
       fst (newComputePipelineStateWithFunction device (GetNative ts)) = Some h').
Proof.
  split.
  - intros Hok.
    destruct (vertexShader desc) as [vs|] eqn:Hvs.
    2:{ rewrite MTGraphicsPSO_ctor_run, CreateRenderPipelineState_no_vertex in Hok by done.
        discriminate. }
    destruct (spec_effectiveRenderPass desc drp) as [rp|] eqn:Hrp.
    2:{ rewrite MTGraphicsPSO_ctor_run in Hok.
        rewrite (CreateRenderPipelineState_no_render_pass env device desc drp _ vs Hvs Hrp)
          in Hok. discriminate. }
    rewrite (MTGraphicsPSO_ctor_closed env device desc drp w vs rp Hvs Hrp) in Hok.
    destruct (fst (newRenderPipelineStateWithDescriptor device _)) as [h|] eqn:Hh;
      [|discriminate].
    exists vs, rp, h. split_and!; try done.
    destruct (0 <? GetNumPatchControlPoints vs) eqn:Hpos.
    + right. destruct (tessControlShader desc) as [ts|]; [|discriminate].
      cbv zeta in Hok.
      destruct (fst (newComputePipelineStateWithFunction device (GetNative ts)))
        as [h'|] eqn:Hh'; [|discriminate].
      by exists ts, h'.
    + left. apply N.ltb_ge in Hpos. lia.
  - intros (vs & rp & h & Hvs & Hrp & Hh & Htess).
    rewrite (MTGraphicsPSO_ctor_closed env device desc drp w vs rp Hvs Hrp), Hh.
    destruct Htess as [Hzero|(ts & h' & Hts & Hh')].
    + rewrite Hzero. change (0 <? 0) with false. by rewrite CreateDepthStencilState_run.
    + rewrite Hts. cbv zeta. rewrite Hh'.
      destruct (0 <? GetNumPatchControlPoints vs); by rewrite CreateDepthStencilState_run.
Qed.

(** X2.  Lines 44-72, 156-279: the object a successful construction leaves
    behind is determined by the descriptor and the device's answers, except
    for two members that keep what the fresh object held: [patchType_] when
    the vertex shader has no native function, and [tessPipelineState_] when
    the vertex stage reports no patch control points. *)
Theorem ctor_success_object env device desc drp w vs rp :
  vertexShader desc = Some vs ->
  spec_effectiveRenderPass desc drp = Some rp ->
  fst (MTGraphicsPSO_ctor env device desc drp w) = Ok tt ->
  this (snd (MTGraphicsPSO_ctor env device desc drp w))
  = {| isGraphicsPSO := true;
       standalone := MTGraphicsPSO_standalone desc;
       pipeline :=
         {| numPatchControlPoints_ := GetNumPatchControlPoints vs;
            patchType_ :=
              match GetNative vs with
              | Some vertexFunc => patchType vertexFunc
              | None => patchType_ (pipeline (this w))
              end;
            renderPipelineState_ :=
              fst (newRenderPipelineStateWithDescriptor device
                     (translated_psoDesc env desc vs rp));
            tessPipelineState_ :=
              match tessControlShader desc with
              | Some ts =>
                  if 0 <? GetNumPatchControlPoints vs
                  then fst (newComputePipelineStateWithFunction device (GetNative ts))
                  else tessPipelineState_ (pipeline (this w))
              | None => tessPipelineState_ (pipeline (this w))
              end |};
       depthStencil :=
         {| depthStencilState_ :=
              newDepthStencilStateWithDescriptor device (CreateDepthStencilState_desc desc);
            stencilFrontRef_ := reference (front (stencil desc));
            stencilBackRef_ := reference (back (stencil desc));
            stencilRefDynamic_ := referenceDynamic (stencil desc) |} |}.
Proof.
  intros Hvs Hrp Hok.
  rewrite (MTGraphicsPSO_ctor_closed env device desc drp w vs rp Hvs Hrp) in Hok |- *.
  destruct (fst (newRenderPipelineStateWithDescriptor device _)) as [h|] eqn:Hh;
    [|discriminate].
  destruct (0 <? GetNumPatchControlPoints vs) eqn:Hpos.
  - destruct (tessControlShader desc) as [ts|]; [|discriminate].
    cbv zeta in Hok |- *.
    destruct (fst (newComputePipelineStateWithFunction device (GetNative ts)))
      as [h'|] eqn:Hh'; [|discriminate].
    rewrite CreateDepthStencilState_run. unfold after_primary_creation, after_patch_query.
    cbn [snd this]. rewrite Hh. by destruct (GetNative vs).
  - rewrite CreateDepthStencilState_run. unfold after_primary_creation, after_patch_query.
    cbn [snd this]. rewrite Hh. by destruct (GetNative vs), (tessControlShader desc).
Qed.

(** X9.  Lines 74-106 after lines 44-72: what [Bind] sends for a successfully
    constructed object, in terms of the descriptor it was constructed from
    and of the device's answers. *)
Theorem Bind_replays_descriptor env device desc drp w vs rp env' :
  vertexShader desc = Some vs ->
  spec_effectiveRenderPass desc drp = Some rp ->
  fst (MTGraphicsPSO_ctor env device desc drp w) = Ok tt ->
  Bind env' (this (snd (MTGraphicsPSO_ctor env device desc drp w)))
  = [ setRenderPipelineState
        (fst (newRenderPipelineStateWithDescriptor device
                (translated_psoDesc env desc vs rp)));
      setDepthStencilState
        (newDepthStencilStateWithDescriptor device (CreateDepthStencilState_desc desc));
      setCullMode (ToMTLCullMode (cullMode (rasterizer desc)));
      setFrontFacingWinding
        (if frontCCW (rasterizer desc)
         then MTLWindingCounterClockwise else MTLWindingClockwise);
      setTriangleFillMode (ToMTLTriangleFillMode (polygonMode (rasterizer desc))) ]
    ++ (if available_depthClipMode env'
        then [ setDepthClipMode
                 (if depthClampEnabled (rasterizer desc)
                  then MTLDepthClipModeClamp else MTLDepthClipModeClip) ]
        else [])
    ++ (if LLGL_OS_IOS env' then []
        else
          setDepthBias (constantFactor (depthBias (rasterizer desc)))
                       (slopeFactor (depthBias (rasterizer desc)))
                       (clamp (depthBias (rasterizer desc)))
          :: (if referenceDynamic (stencil desc) then []
              else if reference (front (stencil desc)) =? reference (back (stencil desc))
                   then [ setStencilReferenceValue (reference (front (stencil desc))) ]
                   else [ setStencilFrontReferenceValue_backReferenceValue
                            (reference (front (stencil desc)))
                            (reference (back (stencil desc))) ]))
    ++ (if IsStaticBlendFactorEnabled (blend desc)
        then [ setBlendColor (cf_r (blendFactor (blend desc)))
                             (cf_g (blendFactor (blend desc)))
                             (cf_b (blendFactor (blend desc)))
                             (cf_a (blendFactor (blend desc))) ]
        else []).
Proof.
  intros Hvs Hrp Hok.
  rewrite (MTGraphicsPSO_ctor_closed env device desc drp w vs rp Hvs Hrp) in Hok |- *.
  destruct (fst (newRenderPipelineStateWithDescriptor device _)) as [h|] eqn:Hh;
    [|discriminate].
  assert (Hend : forall o1 tr1,
    standalone o1 = MTGraphicsPSO_standalone desc ->
    renderPipelineState_ (pipeline o1) = Some h ->
    Bind env' (this (snd (CreateDepthStencilState device desc {| this := o1; trace := tr1 |})))
    = [ setRenderPipelineState (Some h);
        setDepthStencilState
          (newDepthStencilStateWithDescriptor device (CreateDepthStencilState_desc desc));
        setCullMode (ToMTLCullMode (cullMode (rasterizer desc)));
        setFrontFacingWinding
          (if frontCCW (rasterizer desc)
           then MTLWindingCounterClockwise else MTLWindingClockwise);
        setTriangleFillMode (ToMTLTriangleFillMode (polygonMode (rasterizer desc))) ]
      ++ (if available_depthClipMode env'
          then [ setDepthClipMode
                   (if depthClampEnabled (rasterizer desc)
                    then MTLDepthClipModeClamp else MTLDepthClipModeClip) ]
          else [])
      ++ (if LLGL_OS_IOS env' then []
          else
            setDepthBias (constantFactor (depthBias (rasterizer desc)))
                         (slopeFactor (depthBias (rasterizer desc)))
                         (clamp (depthBias (rasterizer desc)))
            :: (if referenceDynamic (stencil desc) then []
                else if reference (front (stencil desc)) =? reference (back (stencil desc))
                     then [ setStencilReferenceValue (reference (front (stencil desc))) ]
                     else [ setStencilFrontReferenceValue_backReferenceValue
                              (reference (front (stencil desc)))
                              (reference (back (stencil desc))) ]))
      ++ (if IsStaticBlendFactorEnabled (blend desc)
          then [ setBlendColor (cf_r (blendFactor (blend desc)))
                               (cf_g (blendFactor (blend desc)))
                               (cf_b (blendFactor (blend desc)))
                               (cf_a (blendFactor (blend desc))) ]
          else [])).
  { intros o1 tr1 Hst Hrps. rewrite CreateDepthStencilState_run.
    unfold Bind. cbn. rewrite Hst, Hrps. cbn.
    destruct (available_depthClipMode env'), (LLGL_OS_IOS env'),
      (referenceDynamic (stencil desc)),
      (reference (front (stencil desc)) =? reference (back (stencil desc))),
      (IsStaticBlendFactorEnabled (blend desc)); reflexivity. }
  destruct (0 <? GetNumPatchControlPoints vs).
  - destruct (tessControlShader desc) as [ts|]; [|discriminate].
    cbv zeta in Hok |- *.
    destruct (fst (newComputePipelineStateWithFunction device (GetNative ts)))
      as [h'|]; [|discriminate].
    apply Hend; unfold after_primary_creation, after_patch_query; cbn [this];
      rewrite ?Hh; by destruct (GetNative vs).
  - unfold after_primary_creation.
    apply Hend; unfold after_patch_query; cbn [this];
      rewrite ?Hh; by destruct (GetNative vs).
Qed.


(** X5.  Lines 166-170: once the vertex shader is there, the object records its
    patch-control-point count and, if the shader has a native function, that
    function's patch type; without a native function [patchType_] keeps its
    previous value.  This holds however the construction ends. *)
Theorem patch_metadata_stored env device desc drp w vs :
  vertexShader desc = Some vs ->
  let o := this (snd (MTGraphicsPSO_ctor env device desc drp w)) in
  numPatchControlPoints_ (pipeline o) = GetNumPatchControlPoints vs /\
  patchType_ (pipeline o)
  = match GetNative vs with
    | Some vertexFunc => patchType vertexFunc
    | None => patchType_ (pipeline (this w))
    end.
Proof.
  intros Hvs o. subst o.
  destruct (spec_effectiveRenderPass desc drp) as [rp|] eqn:Hrp.
  - rewrite (MTGraphicsPSO_ctor_closed env device desc drp w vs rp Hvs Hrp).
    destruct (fst (newRenderPipelineStateWithDescriptor device _));
      [destruct (0 <? GetNumPatchControlPoints vs);
         [destruct (tessControlShader desc) as [ts|];
            [cbv zeta;
             destruct (fst (newComputePipelineStateWithFunction device (GetNative ts)))|]|]|];
      rewrite ?CreateDepthStencilState_run;
      unfold after_primary_creation, after_patch_query; cbn [snd this];
      by destruct (GetNative vs).
  - rewrite MTGraphicsPSO_ctor_run.
    rewrite (CreateRenderPipelineState_no_render_pass env device desc drp _ vs Hvs Hrp).
    unfold after_patch_query. cbn [snd this]. by destruct (GetNative vs).
Qed.

(** X6.  Lines 184-208: the fixed-function part of the descriptor handed to
    the render-pipeline factory.  Rasterization is enabled unless the
    descriptor discards; the sample count is the render pass's only with
    multi-sampling enabled and 1 otherwise; alpha-to-one is always off; the
    fragment function is nil when there is no fragment shader; the input
    topology class is assigned only where the API is available. *)
Theorem factory_descriptor_fixed_function env device desc drp w vs rp :
  vertexShader desc = Some vs ->
  spec_effectiveRenderPass desc drp = Some rp ->
  exists pd,
    In (NewRenderPipelineState pd)
       (events_since w (snd (MTGraphicsPSO_ctor env device desc drp w))) /\
    rasterizationEnabled pd = (if discardEnabled (rasterizer desc) then NO else YES) /\
    rasterSampleCount pd
    = (if multiSampleEnabled (rasterizer desc) then GetSampleCount rp else 1) /\
    alphaToOneEnabled pd = NO /\
    pso_alphaToCoverageEnabled pd
    = (if alphaToCoverageEnabled (blend desc) then YES else NO) /\
    vertexDescriptor pd = GetMTLVertexDesc vs /\
    vertexFunction pd = GetNative vs /\
    fragmentFunction pd
    = match fragmentShader desc with
      | Some fs => GetNative fs
      | None => None
      end /\
    inputPrimitiveTopology pd
    = (if available_inputTopology env
       then Some (ToMTLPrimitiveTopologyClass (primitiveTopology desc))
       else None).
Proof.
  intros Hvs Hrp.
  destruct (factory_descriptor env device desc drp w vs rp Hvs Hrp) as [Hin _].
  exists (translated_psoDesc env desc vs rp).
  split_and!; try done.
  unfold translated_psoDesc, psoDesc_properties, GetNativeMTShader. cbn. by rewrite Hvs.
Qed.

(** X7.  Lines 210-224: with patch control points the descriptor handed to the
    factory has all tessellation properties assigned: factor scaling off,
    half-precision factors, the per-patch-and-per-instance step function, the
    winding order of [outputWindingCCW], and the converted index type and
    partition mode. *)
Theorem tessellation_properties_populated env device desc drp w vs rp :
  vertexShader desc = Some vs ->
  spec_effectiveRenderPass desc drp = Some rp ->
  0 < GetNumPatchControlPoints vs ->
  exists pd tess,
    In (NewRenderPipelineState pd)
       (events_since w (snd (MTGraphicsPSO_ctor env device desc drp w))) /\
    pso_tessellation pd = Some tess /\
    tessellationFactorScaleEnabled tess = NO /\
    tessellationFactorFormat tess = MTLTessellationFactorFormatHalf /\
    tessellationFactorStepFunction tess
    = MTLTessellationFactorStepFunctionPerPatchAndPerInstance /\
    tessellationOutputWindingOrder tess
    = (if outputWindingCCW (tessellation desc)
       then MTLWindingCounterClockwise else MTLWindingClockwise) /\
    tessellationControlPointIndexType tess
    = ToMTLPatchIndexType (indexFormat (tessellation desc)) /\
    tessellationPartitionMode tess = ToMTLPartitionMode (partition (tessellation desc)).
Proof.
  intros Hvs Hrp Hpos.
  destruct (factory_descriptor env device desc drp w vs rp Hvs Hrp) as [Hin _].
  apply N.ltb_lt in Hpos.
  unfold translated_psoDesc, psoDesc_properties in Hin. rewrite Hpos in Hin.
  eexists _, _. split_and!; [exact Hin|reflexivity..].
Qed.

(** X3.  Lines 69-71, 226-244, 277: the native creation calls of any
    construction come in one order: the render pipeline, then the compute
    pipeline, then the depth-stencil state.  There are never more than these
    three, the depth-stencil state is asked for exactly in the successful
    runs and last, and a failed construction leaves the stencil references
    and the depth-stencil handle of the object as they were. *)
Theorem native_creations_in_order env device desc drp w :
  let r := MTGraphicsPSO_ctor env device desc drp w in
  let evs := events_since w (snd r) in
  (fst r <> Ok tt -> depthStencil (this (snd r)) = depthStencil (this w)) /\
  match native_creations evs with
  | [] =>
      fst r <> Ok tt /\
      (vertexShader desc = None \/ spec_effectiveRenderPass desc drp = None)
  | [NewRenderPipelineState _] => fst r <> Ok tt
  | [NewRenderPipelineState _; NewComputePipelineState _] => fst r <> Ok tt
  | [NewRenderPipelineState _; NewDepthStencilState d] =>
      fst r = Ok tt /\ d = CreateDepthStencilState_desc desc
  | [NewRenderPipelineState _; NewComputePipelineState _; NewDepthStencilState d] =>
      fst r = Ok tt /\ d = CreateDepthStencilState_desc desc
  | _ => False
  end.
Proof.
  intros r evs.
  destruct (vertexShader desc) as [vs|] eqn:Hvs.
  2:{ assert (Hr : r = (Throw (InvalidArgument msg_no_vertex_shader),
                        {| this := after_standalone desc (this w); trace := trace w |})).
      { subst r. rewrite MTGraphicsPSO_ctor_run.
        by rewrite CreateRenderPipelineState_no_vertex by done. }
      subst evs. rewrite Hr. cbn [fst snd]. rewrite events_since_same. cbn.
      split_and!; [done|done|by left]. }
  destruct (spec_effectiveRenderPass desc drp) as [rp|] eqn:Hrp.
  2:{ assert (Hr : r = (Throw (InvalidArgument msg_no_render_pass),
                        {| this := after_patch_query vs (after_standalone desc (this w));
                           trace := trace w |})).
      { subst r. rewrite MTGraphicsPSO_ctor_run.
        by rewrite (CreateRenderPipelineState_no_render_pass env device desc drp _ vs Hvs Hrp). }
      subst evs. rewrite Hr. cbn [fst snd]. rewrite events_since_same. cbn.
      split_and!; [|done|by right].
      intros _. unfold after_patch_query. by destruct (GetNative vs). }
  pose proof (MTGraphicsPSO_ctor_closed env device desc drp w vs rp Hvs Hrp) as Hrun.
  fold r in Hrun. cbv zeta in Hrun.
  set (pd := translated_psoDesc env desc vs rp) in *.
  set (dsd := CreateDepthStencilState_desc desc).
  assert (Hcases :
    (fst r <> Ok tt /\ depthStencil (this (snd r)) = depthStencil (this w) /\
     (native_creations evs = [NewRenderPipelineState pd] \/
      exists f, native_creations evs
                = [NewRenderPipelineState pd; NewComputePipelineState f])) \/
    (fst r = Ok tt /\
     (native_creations evs = [NewRenderPipelineState pd; NewDepthStencilState dsd] \/
      exists f, native_creations evs
                = [NewRenderPipelineState pd; NewComputePipelineState f;
                   NewDepthStencilState dsd]))).
  { subst evs. rewrite Hrun.
    destruct (fst (newRenderPipelineStateWithDescriptor device pd)) as [h|] eqn:Hh.
    - destruct (0 <? GetNumPatchControlPoints vs).
      + destruct (tessControlShader desc) as [ts|].
        * cbv zeta.
          destruct (fst (newComputePipelineStateWithFunction device (GetNative ts))) as [h'|].
          -- right. rewrite CreateDepthStencilState_run.
             unfold after_primary_creation. fold pd. cbn [fst snd this trace].
             split; [done|]. right. exists (GetNative ts).
             rewrite (events_since_app w _
                        (attachment_reads desc rp ++
                         [NewRenderPipelineState pd; NewComputePipelineState (GetNative ts);
                          NewDepthStencilState dsd]))
               by (cbn; rewrite <- ?app_assoc; reflexivity).
             by rewrite native_creations_after_reads.
          -- left. unfold after_primary_creation. fold pd. cbn [fst snd this trace].
             split_and!; [done|unfold after_patch_query; by destruct (GetNative vs)|].
             right. exists (GetNative ts).
             rewrite (events_since_app w _
                        (attachment_reads desc rp ++
                         [NewRenderPipelineState pd; NewComputePipelineState (GetNative ts)]))
               by (cbn; rewrite <- ?app_assoc; reflexivity).
             by rewrite native_creations_after_reads.
        * left. unfold after_primary_creation. fold pd. cbn [fst snd this trace].
          split_and!; [done|unfold after_patch_query; by destruct (GetNative vs)|].
          left.
          rewrite (events_since_app w _
                     (attachment_reads desc rp ++ [NewRenderPipelineState pd]))
            by (cbn; rewrite <- ?app_assoc; reflexivity).
          by rewrite native_creations_after_reads.
      + right. rewrite CreateDepthStencilState_run.
        unfold after_primary_creation. fold pd. cbn [fst snd this trace].
        split; [done|]. left.
        rewrite (events_since_app w _
                   (attachment_reads desc rp ++
                    [NewRenderPipelineState pd; NewDepthStencilState dsd]))
          by (cbn; rewrite <- ?app_assoc; reflexivity).
        by rewrite native_creations_after_reads.
    - left. unfold after_primary_creation. fold pd. cbn [fst snd this trace].
      split_and!; [done|unfold after_patch_query; by destruct (GetNative vs)|].
      left.
      rewrite (events_since_app w _
                 (attachment_reads desc rp ++ [NewRenderPipelineState pd]))
        by (cbn; rewrite <- ?app_assoc; reflexivity).
      by rewrite native_creations_after_reads. }
  destruct Hcases as [(Hfail & Hds & [Hn|[f Hn]])|(Hok & [Hn|[f Hn]])];
    rewrite Hn; split; done.
Qed.

End Coverage.

(** X10.  Lines 74-106: the shape of what [Bind] sends, for any object.  The
    render pipeline state is bound first and the depth-stencil state second,
    followed by cull mode, winding and fill mode; between five and nine
    messages are sent; the depth clip mode is sent exactly where the API is
    available, the depth bias exactly on builds without [LLGL_OS_IOS], and
    the blend colour exactly for an object with [blendColorEnabled_], as the
    last message. *)
Theorem Bind_shape env pso :
  firstn 5 (Bind env pso)
  = [ setRenderPipelineState (renderPipelineState_ (pipeline pso));
      setDepthStencilState (depthStencilState_ (depthStencil pso));
      setCullMode (cullMode_ (standalone pso));
      setFrontFacingWinding (winding_ (standalone pso));
      setTriangleFillMode (fillMode_ (standalone pso)) ] /\
  (5 <= length (Bind env pso) <= 9)%nat /\
  (In (setDepthClipMode (clipMode_ (standalone pso))) (Bind env pso)
   <-> available_depthClipMode env = true) /\
  (In (setDepthBias (depthBias_ (standalone pso)) (depthSlope_ (standalone pso))
                    (depthClamp_ (standalone pso))) (Bind env pso)
   <-> LLGL_OS_IOS env = false) /\
  ((exists r g b a, In (setBlendColor r g b a) (Bind env pso))
   <-> blendColorEnabled_ (standalone pso) = true) /\
  (blendColorEnabled_ (standalone pso) = true ->
   last (Bind env pso)
   = Some (setBlendColor (blendColor_ (standalone pso)).1.1.1
                         (blendColor_ (standalone pso)).1.1.2
                         (blendColor_ (standalone pso)).1.2
                         (blendColor_ (standalone pso)).2)).
Proof.
  unfold Bind.
  destruct (blendColor_ (standalone pso)) as [[[cr cg] cb] ca].
  destruct (available_depthClipMode env), (LLGL_OS_IOS env),
    (stencilRefDynamic_ (depthStencil pso)),
    (stencilFrontRef_ (depthStencil pso) =? stencilBackRef_ (depthStencil pso)),
    (blendColorEnabled_ (standalone pso)); cbn.
  all: bind_shape_goal.
Qed.

(** X11.  Lines 85-95: on every build [Bind] sends at most one stencil-reference
    message, and none for an object whose reference is dynamic. *)
Theorem Bind_stencil_reference_at_most_one env pso :
  (length (stencil_reference_commands env pso) <= 1)%nat /\
  (stencilRefDynamic_ (depthStencil pso) = true ->
   stencil_reference_commands env pso = []).
Proof.
  destruct (LLGL_OS_IOS env) eqn:Hos.
  - rewrite Bind_stencil_reference_ios by done. split; [cbn; lia|done].
  - rewrite Bind_stencil_reference_compiled by done.
    destruct (stencilRefDynamic_ (depthStencil pso)); [split; [cbn; lia|done]|].
    split; [|done].
    destruct (stencilFrontRef_ (depthStencil pso) =? stencilBackRef_ (depthStencil pso));
      cbn; lia.
Qed.

(** ** Direct3D 11 storage buffer: flags and descriptors *)

Section D3D11StorageBufferFacts.
Context {types : StorageBufferTypes}.

(** X13.  Lines 372-399 ([CreateUAV]): the view carries the RAW flag exactly
    when its format is [DXGI_FORMAT_R32_TYPELESS], which is exactly when the
    buffer is byte addressable, as the comment in the code requires; the
    flags are never combined; and the view spans the elements it was asked
    for. *)
Theorem CreateUAV_raw_iff_typeless (t : StorageBufferType) (firstElement numElements : N) :
  let d := CreateUAV_desc t firstElement numElements in
  N.testbit (uav_Flags d) 0 = IsByteAddressable t /\
  (uav_Format d = DXGI_FORMAT_R32_TYPELESS <-> IsByteAddressable t = true) /\
  (N.land (uav_Flags d) D3D11_BUFFER_UAV_FLAG_RAW <> 0
   <-> uav_Format d = DXGI_FORMAT_R32_TYPELESS) /\
  In (uav_Flags d) [0; D3D11_BUFFER_UAV_FLAG_RAW; D3D11_BUFFER_UAV_FLAG_APPEND;
                    D3D11_BUFFER_UAV_FLAG_COUNTER] /\
  uav_FirstElement d = firstElement /\
  uav_NumElements d = numElements.
Proof.
  unfold CreateUAV_desc.
  destruct (IsByteAddressable t), (t =? AppendStructuredBuffer),
    (t =? ConsumeStructuredBuffer); cbn.
  all: split_and!; try reflexivity; try (split; [done|done]); try (split; discriminate).
  all: try (split; [intros _; reflexivity|intros _; discriminate]).
  all: try (split; [intros H; by destruct H|discriminate]).
  all: in_list.
Qed.

(** X14.  Lines 362-370 and 392-395: a view with the APPEND or the COUNTER flag
    is only ever described for a buffer whose misc flags say it is
    structured, and its format is unknown. *)
Theorem CreateUAV_append_counter_on_structured
    (t : StorageBufferType) (firstElement numElements : N) :
  let d := CreateUAV_desc t firstElement numElements in
  uav_Flags d = D3D11_BUFFER_UAV_FLAG_APPEND \/ uav_Flags d = D3D11_BUFFER_UAV_FLAG_COUNTER ->
  (t = AppendStructuredBuffer \/ t = ConsumeStructuredBuffer) /\
  IsStructured t = true /\
  GetMiscFlags t = D3D11_RESOURCE_MISC_BUFFER_STRUCTURED /\
  uav_Format d = DXGI_FORMAT_UNKNOWN.
Proof.
  unfold CreateUAV_desc, GetMiscFlags, IsStructured.
  destruct (IsByteAddressable t); [cbn; intros [H|H]; discriminate|].
  destruct (t =? AppendStructuredBuffer) eqn:Ha.
  - intros _. apply N.eqb_eq in Ha. rewrite orb_true_r. cbn. by split_and!; [left|..].
  - destruct (t =? ConsumeStructuredBuffer) eqn:Hc.
    + intros _. apply N.eqb_eq in Hc. rewrite orb_true_r. by split_and!; [right|..].
    + cbn. intros [H|H]; discriminate.
Qed.

(** X15.  Lines 338-350, 362-370, 383-391: when no byte-address enumerator
    shares its value with a structured one, a byte-addressable buffer is not
    structured, is created with the ALLOW_RAW_VIEWS misc flag, and its view
    is the raw typeless one. *)
Theorem byte_addressable_buffer_allows_raw_views
    (t : StorageBufferType) (firstElement numElements : N) :
  byte_address_apart_from_structured ->
  IsByteAddressable t = true ->
  IsStructured t = false /\
  GetMiscFlags t = D3D11_RESOURCE_MISC_BUFFER_ALLOW_RAW_VIEWS /\
  uav_Flags (CreateUAV_desc t firstElement numElements) = D3D11_BUFFER_UAV_FLAG_RAW /\
  uav_Format (CreateUAV_desc t firstElement numElements) = DXGI_FORMAT_R32_TYPELESS.
Proof.
  intros Hapart Hb.
  assert (Hs : IsStructured t = false).
  { unfold byte_address_apart_from_structured in Hapart.
    rewrite !Forall_cons in Hapart. destruct Hapart as (H1 & H2 & _).
    unfold IsByteAddressable in Hb. apply orb_true_iff in Hb.
    unfold IsStructured. rewrite !orb_false_iff, !N.eqb_neq.
    destruct Hb as [Hb|Hb]; apply N.eqb_eq in Hb; subst t.
    - split_and!; intros Heq; apply H1; cbn; rewrite <- Heq; auto 6.
    - split_and!; intros Heq; apply H2; cbn; rewrite <- Heq; auto 6. }
  unfold GetMiscFlags, CreateUAV_desc. by rewrite Hs, Hb.
Qed.

(** X16.  Lines 311-319: with zero elements the stride division has no defined
    result.  Otherwise the byte width is the size and the stride is the
    quotient, both as stored in a UINT, and for a size that fits a UINT the
    elements never overrun the buffer: stride times elements is at most the
    byte width and falls short of it by less than the number of elements.
    The bind flag is one of the two view kinds and no CPU access is asked
    for. *)
Theorem bufferDesc_stride (desc : BufferDescriptor) :
  (buf_elements desc = 0 -> D3D11StorageBuffer_bufferDesc desc = None) /\
  (0 < buf_elements desc ->
   exists d,
     D3D11StorageBuffer_bufferDesc desc = Some d /\
     ByteWidth d = buf_size desc mod 2 ^ 32 /\
     StructureByteStride d = (buf_size desc / buf_elements desc) mod 2 ^ 32 /\
     (buf_size desc < 2 ^ 32 ->
      StructureByteStride d * buf_elements desc <= ByteWidth d /\
      ByteWidth d < StructureByteStride d * buf_elements desc + buf_elements desc) /\
     (BindFlags d = D3D11_BIND_UNORDERED_ACCESS \/ BindFlags d = D3D11_BIND_SHADER_RESOURCE) /\
     CPUAccessFlags d = 0 /\
     MiscFlags d = GetMiscFlags (buf_storageType desc)).
Proof.
  unfold D3D11StorageBuffer_bufferDesc. split.
  - intros ->. reflexivity.
  - intros Hpos. destruct (buf_elements desc =? 0) eqn:He;
      [apply N.eqb_eq in He; lia|].
    eexists. split; [reflexivity|]. cbn [ByteWidth StructureByteStride BindFlags
                                         CPUAccessFlags MiscFlags].
    unfold to_UINT. split_and!; try reflexivity.
    + intros Hfit.
      assert (Hq : buf_size desc / buf_elements desc <= buf_size desc).
      { apply N.Div0.div_le_upper_bound. nia. }
      rewrite (N.mod_small (buf_size desc)) by done.
      rewrite (N.mod_small (buf_size desc / buf_elements desc)) by lia.
      pose proof (N.Div0.div_mod (buf_size desc) (buf_elements desc)) as Hdm.
      pose proof (N.mod_upper_bound (buf_size desc) (buf_elements desc)
                    ltac:(lia)) as Hub.
      rewrite (N.mul_comm (buf_size desc / buf_elements desc)).
      set (q := buf_size desc / buf_elements desc) in *.
      set (m := buf_size desc mod buf_elements desc) in *.
      clearbody q m. split; nia.
    + unfold GetBindFlags. destruct (IsUAV _); [by left|by right].
Qed.

(** X17.  Lines 311-326: the view the constructor creates is of the kind the
    buffer was created for (an unordered-access view with the
    UNORDERED_ACCESS bind flag, a shader-resource view with the
    SHADER_RESOURCE one), starts at element 0 and spans the number of
    elements of the descriptor; a shader-resource view is always of unknown
    format. *)
Theorem view_matches_bind_flags (desc : BufferDescriptor) (d : D3D11_BUFFER_DESC) :
  D3D11StorageBuffer_bufferDesc desc = Some d ->
  match D3D11StorageBuffer_view desc with
  | inl uav =>
      BindFlags d = D3D11_BIND_UNORDERED_ACCESS /\
      IsUAV (buf_storageType desc) = true /\
      uav_FirstElement uav = 0 /\
      uav_NumElements uav = buf_elements desc mod 2 ^ 32
  | inr srv =>
      BindFlags d = D3D11_BIND_SHADER_RESOURCE /\
      IsUAV (buf_storageType desc) = false /\
      srv_FirstElement srv = 0 /\
      srv_NumElements srv = buf_elements desc mod 2 ^ 32 /\
      srv_Format srv = DXGI_FORMAT_UNKNOWN
  end.
Proof.
  unfold D3D11StorageBuffer_bufferDesc, D3D11StorageBuffer_view, GetBindFlags.
  destruct (buf_elements desc =? 0); [discriminate|].
  intros [= <-]. cbn [BindFlags].
  destruct (IsUAV (buf_storageType desc)) eqn:Hu.
  - unfold CreateUAV_desc.
    destruct (IsByteAddressable (buf_storageType desc)),
      (buf_storageType desc =? AppendStructuredBuffer),
      (buf_storageType desc =? ConsumeStructuredBuffer); split_and!; reflexivity.
  - split_and!; reflexivity.
Qed.

End D3D11StorageBufferFacts.

(** ** The further properties at concrete inputs *)

Section ConcreteCoverage.
Import Fixtures.

#[local] Existing Instance namesake_tables.
#[local] Existing Instance no_static_blend_factor.
#[local] Existing Instance sample_storage_types.

Lemma ctor_success_object_witness :
  pipeline (this (snd (MTGraphicsPSO_ctor macos accepting_device
                         (tess_with_control (Some one_attachment)) None fresh)))
  = {| numPatchControlPoints_ := 3; patchType_ := 1;
       renderPipelineState_ := Some 1; tessPipelineState_ := Some 2 |}.
Proof.
  exact (f_equal pipeline
           (ctor_success_object macos accepting_device
              (tess_with_control (Some one_attachment)) None fresh
              (shader 3) one_attachment eq_refl eq_refl eq_refl)).
Defined.

Lemma Bind_replays_descriptor_witness :
  Bind macos (this (snd (MTGraphicsPSO_ctor ios accepting_device
                           (plain (Some one_attachment) false) None fresh)))
  = [ setRenderPipelineState (Some 1); setDepthStencilState (Some 3);
      setCullMode 0; setFrontFacingWinding MTLWindingClockwise;
      setTriangleFillMode 0; setDepthClipMode MTLDepthClipModeClip;
      setDepthBias 0%Z 0%Z 0%Z; setStencilReferenceValue 0 ].
Proof.
  exact (Bind_replays_descriptor ios accepting_device
           (plain (Some one_attachment) false) None fresh
           (shader 0) one_attachment macos eq_refl eq_refl eq_refl).
Defined.


Lemma patch_metadata_stored_witness :
  numPatchControlPoints_
    (pipeline (this (snd (MTGraphicsPSO_ctor macos accepting_device
                            (tess_without_control None) None fresh))))
  = 3.
Proof.
  exact (proj1 (patch_metadata_stored macos accepting_device
                  (tess_without_control None) None fresh (shader 3) eq_refl)).
Defined.

Lemma factory_descriptor_fixed_function_witness :
  exists pd,
    In (NewRenderPipelineState pd)
       (events_since fresh
          (snd (MTGraphicsPSO_ctor macos accepting_device
                  (plain (Some one_attachment) false) None fresh))) /\
    rasterizationEnabled pd = YES /\
    rasterSampleCount pd = 1 /\
    fragmentFunction pd = None.
Proof.
  destruct (factory_descriptor_fixed_function macos accepting_device
              (plain (Some one_attachment) false) None fresh
              (shader 0) one_attachment eq_refl eq_refl)
    as (pd & Hin & Hr & Hs & _ & _ & _ & _ & Hf & _).
  exists pd. split; [exact Hin|]. split; [exact Hr|]. split; [exact Hs|exact Hf].
Defined.

Lemma tessellation_properties_populated_witness :
  exists pd tess,
    In (NewRenderPipelineState pd)
       (events_since fresh
          (snd (MTGraphicsPSO_ctor macos accepting_device
                  (tess_with_control (Some one_attachment)) None fresh))) /\
    pso_tessellation pd = Some tess /\
    tessellationFactorStepFunction tess
    = MTLTessellationFactorStepFunctionPerPatchAndPerInstance.
Proof.
  destruct (tessellation_properties_populated macos accepting_device
              (tess_with_control (Some one_attachment)) None fresh
              (shader 3) one_attachment eq_refl eq_refl eq_refl)
    as (pd & tess & Hin & Ht & _ & _ & Hstep & _).
  exists pd, tess. split; [exact Hin|]. split; [exact Ht|exact Hstep].
Defined.

Lemma Bind_after_ctor_stencil_reference_witness :
  stencil_reference_commands macos
    (this (snd (MTGraphicsPSO_ctor macos accepting_device
                  (plain (Some one_attachment) false) None fresh)))
  = [setStencilReferenceValue 0].
Proof.
  exact (Bind_after_ctor_stencil_reference macos accepting_device
           (plain (Some one_attachment) false) None fresh macos eq_refl eq_refl).
Defined.

Lemma CreateUAV_append_counter_on_structured_witness :
  GetMiscFlags AppendStructuredBuffer = D3D11_RESOURCE_MISC_BUFFER_STRUCTURED.
Proof.
  assert (Hflag : uav_Flags (CreateUAV_desc AppendStructuredBuffer 0 16)
                  = D3D11_BUFFER_UAV_FLAG_APPEND \/
                  uav_Flags (CreateUAV_desc AppendStructuredBuffer 0 16)
                  = D3D11_BUFFER_UAV_FLAG_COUNTER) by (left; reflexivity).
  destruct (CreateUAV_append_counter_on_structured AppendStructuredBuffer 0 16 Hflag)
    as (_ & _ & H & _).
  exact H.
Defined.

Lemma byte_addressable_buffer_allows_raw_views_witness :
  GetMiscFlags RWByteAddressBuffer = D3D11_RESOURCE_MISC_BUFFER_ALLOW_RAW_VIEWS /\
  uav_Format (CreateUAV_desc RWByteAddressBuffer 0 16) = DXGI_FORMAT_R32_TYPELESS.
Proof.
  assert (Hapart : byte_address_apart_from_structured).
  { unfold byte_address_apart_from_structured.
    repeat constructor; cbn; intros H; repeat destruct H as [H|H]; discriminate H || exact H. }
  destruct (byte_addressable_buffer_allows_raw_views (types:=sample_storage_types)
              (@RWByteAddressBuffer sample_storage_types) 0 16 Hapart eq_refl)
    as (_ & Hm & _ & Hf).
  split; [exact Hm|exact Hf].
Defined.

Lemma view_matches_bind_flags_witness :
  match D3D11StorageBuffer_view
          {| buf_size := 64; buf_storageType := StructuredBuffer; buf_elements := 4 |} with
  | inl _ => False
  | inr srv => srv_NumElements srv = 4
  end.
Proof.
  destruct (view_matches_bind_flags (types:=sample_storage_types)
              {| buf_size := 64; buf_storageType := @StructuredBuffer sample_storage_types;
                 buf_elements := 4 |}
              _ eq_refl)
    as (_ & _ & _ & H & _).
  exact H.
Defined.

End ConcreteCoverage.
